(** * WS2812 LED strip controller (led_controller.py): model and properties

    A shallow embedding of [led_controller.py]: the [Strip] frame buffer, the
    abstract [WS2812StripDriver] interface, the SPI driver [WS2812SpiDriver]
    with its bit encoder, and the effects [all_white_on], [all_off],
    [white_rotate], [all_blue_on], [all_green_on] and [white_breathing]. The
    first part gives the model, the second the vocabulary of the statements,
    the third the proofs.

    Conventions of the embedding
    - Python [int] is [Z]; Python [float] is an IEEE 754 binary64 value,
      represented by [spec_float] with precision 53 and [emax] 1024.
    - A [uint8] numpy array is a [list Z] of values in [0, 256); a
      two-dimensional one is the list of its rows.
    - A method is a function from the object's state to an outcome and the
      state after the call; a raised exception keeps the state reached so far,
      as the Python object does.
    - The statements about the bytes [show] produces are about colors with
      8-bit channels and a brightness in [0.0, 1.0], where the conversion of
      the channel to float and the cast of the product to [uint8] are exact.
    - [time.sleep] is modelled on the delays it accepts, where it returns
      and changes nothing the model holds. *)

From Stdlib Require Import ZArith Lia Bool SpecFloat.
From stdpp Require Import base list.

Open Scope Z_scope.

(** ** Exceptions and the method monad *)

Inductive exn : Type :=
  | IndexError   (* list index out of range *)
  | ValueError.  (* numpy: negative dimensions, shapes that do not broadcast *)

Inductive outcome (A : Type) : Type :=
  | Return (a : A)
  | Raise (e : exn).
Arguments Return {A} a.
Arguments Raise {A} e.

Definition obind {A B} (o : outcome A) (k : A -> outcome B) : outcome B :=
  match o with
  | Return a => k a
  | Raise e => Raise e
  end.

(** A method of an object with state [S] returning an [A]. *)
Definition M (S A : Type) : Type := S -> outcome A * S.

Definition ret {S A} (a : A) : M S A := fun s => (Return a, s).
Definition raise {S A} (e : exn) : M S A := fun s => (Raise e, s).
Definition bind {S A B} (c : M S A) (k : A -> M S B) : M S B :=
  fun s =>
    match c s with
    | (Return a, s') => k a s'
    | (Raise e, s') => (Raise e, s')
    end.
Definition lift {S A} (o : outcome A) : M S A := fun s => (o, s).

Notation "'let?' x ':=' o 'in' k" := (obind o (fun x => k))
  (at level 10, x pattern, o at level 100, k at level 200).
Notation "'let*' x ':=' c 'in' k" := (bind c (fun x => k))
  (at level 10, x pattern, c at level 100, k at level 200).
Notation "'do*' c 'in' k" := (bind c (fun _ => k))
  (at level 10, c at level 100, k at level 200).

(** [for x in l: body x] *)
Fixpoint for_each {S A} (l : list A) (body : A -> M S unit) : M S unit :=
  match l with
  | [] => ret tt
  | x :: l' => do* body x in for_each l' body
  end.

(** [range(n)]: empty when [n <= 0]. *)
Definition range (n : Z) : list Z := map Z.of_nat (seq 0 (Z.to_nat n)).

(** ** Python lists *)

(** [[x] * n]: the empty list when [n <= 0]. *)
Definition list_mul {A} (x : A) (n : Z) : list A := replicate (Z.to_nat n) x.

(** The position a Python index denotes in a list of length [len]: negative
    indices count from the end; anything outside [-len, len) is an
    [IndexError]. *)
Definition py_index (len : nat) (i : Z) : outcome nat :=
  let n := Z.of_nat len in
  if (0 <=? i) && (i <? n) then Return (Z.to_nat i)
  else if (- n <=? i) && (i <? 0) then Return (Z.to_nat (n + i))
  else Raise IndexError.

(** [l[i] = x] *)
Definition list_setitem {A} (l : list A) (i : Z) (x : A) : outcome (list A) :=
  let? k := py_index (length l) i in Return (<[k := x]> l).

(** [l[i]] *)
Definition list_getitem {A} (l : list A) (i : Z) : outcome A :=
  let? k := py_index (length l) i in
  match l !! k with
  | Some x => Return x
  | None => Raise IndexError
  end.

(** [l.pop(0)]: the first element and the rest. *)
Definition list_pop0 {A} (l : list A) : outcome (A * list A) :=
  match l with
  | [] => Raise IndexError
  | x :: l' => Return (x, l')
  end.

(** ** Python floats (IEEE 754 binary64) *)

Definition prec : Z := 53.
Definition emax : Z := 1024.

Definition float : Type := spec_float.

(** [float(z)], the conversion Python applies to the [int] operand of a mixed
    [int * float] product: round to nearest, ties to even. Python raises
    [OverflowError] for an [int] too large for a float (from [2 ^ 1024] on),
    where this conversion gives an infinity; the statements that depend on
    the conversion are about 8-bit channels, where it is exact. *)
Definition float_of_int (z : Z) : float := binary_normalize prec emax z 0 false.

Definition float_mul (x y : float) : float := SFmul prec emax x y.

(** [x < y] on floats: false as soon as one side is NaN. *)
Definition float_lt (x y : float) : bool := SFltb x y.
Definition float_le (x y : float) : bool := SFleb x y.

(** The literals [0.0] and [1.0]. *)
Definition float_0_0 : float := S754_zero false.
Definition float_1_0 : float := S754_finite false 4503599627370496 (-52).

(** Builtin [min(a, b)] and [max(a, b)] on two arguments: the first argument
    is kept unless the second compares strictly below (above) it. *)
Definition py_min (a b : float) : float := if float_lt b a then b else a.
Definition py_max (a b : float) : float := if float_lt a b then b else a.

(** Truncation toward zero of a float to an integer (0 for NaN and the
    infinities, which have none). *)
Definition float_trunc (x : float) : Z :=
  match x with
  | S754_finite s m e => cond_Zopp s (Z.shiftl (Z.pos m) e)
  | _ => 0
  end.

(** ** numpy arrays of dtype uint8 *)

Module np.

(** Storing an integer into a [uint8] array keeps its low eight bits. *)
Definition uint8 (v : Z) : Z := v mod 256.

(** The cast of a float64 to [uint8] performed by
    [np.array(..., dtype=np.uint8)]: truncation toward zero. It is exact for
    floats in (-1, 256); outside that range C leaves the result open, and
    the model keeps the low eight bits of the truncation. *)
Definition astype_uint8 (x : float) : Z := uint8 (float_trunc x).

(** [np.zeros(n, dtype=np.uint8)] *)
Definition zeros (n : Z) : outcome (list Z) :=
  if n <? 0 then Raise ValueError else Return (replicate (Z.to_nat n) 0).

(** [np.full(n, v, dtype=np.uint8)] *)
Definition full (n : Z) (v : Z) : outcome (list Z) :=
  if n <? 0 then Raise ValueError else Return (replicate (Z.to_nat n) (uint8 v)).

(** [a.ravel()] of a two-dimensional array given by its rows. *)
Definition ravel (a : list (list Z)) : list Z := concat a.

(** The bits of one byte, most significant first. *)
Definition byte_bits (x : Z) : list Z :=
  map (fun k => Z.b2z (Z.testbit x k)) [7; 6; 5; 4; 3; 2; 1; 0].

(** [np.unpackbits(a)] on a one-dimensional [uint8] array. *)
Definition unpackbits (a : list Z) : list Z := flat_map byte_bits a.

(** [np.where(bits == 1, x, y)] *)
Definition where_eq_1 (bits : list Z) (x y : Z) : list Z :=
  map (fun bit => if bit =? 1 then x else y) bits.

(** [a[start:] = v] on a one-dimensional [uint8] array [a]: [v] must have
    the length of the slice, or length 1 (then it is broadcast); any other
    length raises [ValueError]. *)
Definition setitem_from (a : list Z) (start : nat) (v : list Z)
  : outcome (list Z) :=
  let n := length (drop start a) in
  if decide (length v = n) then Return (take start a ++ map uint8 v)
  else
    match v with
    | [x] => Return (take start a ++ replicate n (uint8 x))
    | _ => Raise ValueError
    end.

End np.

(** ** Color = namedtuple("Color", ["r", "g", "b"]) *)

Module Color.
Record t : Type := mk { r : Z; g : Z; b : Z }.
End Color.

(** ** class WS2812StripDriver(ABC): the abstract methods *)

Module WS2812StripDriver.
Class t (D : Type) : Type := {
  write : list (list Z) -> M D unit;
  clear : M D unit;
  get_led_count : D -> Z
}.
End WS2812StripDriver.

(** ** class Strip *)

Module Strip.
Section Strip.
Context {D : Type} `{WS2812StripDriver.t D}.

Record t : Type := mk {
  _led_count : Z;
  _brightness : float;
  _pixels : list Color.t;
  _backend : D
}.

(** A call of a backend method from a method of the strip. *)
Definition call_backend {A} (c : M D A) : M t A :=
  fun self =>
    let (o, d) := c (_backend self) in
    (o, mk (_led_count self) (_brightness self) (_pixels self) d).

Definition __init__ (backend : D) : t :=
  let led_count := WS2812StripDriver.get_led_count backend in
  {| _led_count := led_count;
     _brightness := float_1_0;
     _pixels := list_mul (Color.mk 0 0 0) led_count;
     _backend := backend |}.

Definition set_pixel_color (i : Z) (color : Color.t) : M t unit :=
  fun self =>
    match list_setitem (_pixels self) i color with
    | Return pixels =>
        (Return tt,
         mk (_led_count self) (_brightness self) pixels (_backend self))
    | Raise e => (Raise e, self)
    end.

(** The array [show] builds: per pixel the row [g, r, b], each channel
    multiplied by the brightness as a float and cast to [uint8]. *)
Definition show_buffer (pixels : list Color.t) (brightness : float)
  : list (list Z) :=
  map (fun pixel =>
         map np.astype_uint8
           [float_mul (float_of_int (Color.g pixel)) brightness;
            float_mul (float_of_int (Color.r pixel)) brightness;
            float_mul (float_of_int (Color.b pixel)) brightness])
      pixels.

Definition show : M t unit :=
  fun self =>
    let buffer := show_buffer (_pixels self) (_brightness self) in
    call_backend (WS2812StripDriver.write buffer) self.

Definition clear : M t unit :=
  fun self =>
    let self' :=
      mk (_led_count self) (_brightness self)
         (list_mul (Color.mk 0 0 0) (_led_count self)) (_backend self) in
    call_backend WS2812StripDriver.clear self'.

Definition set_brightness (brightness : float) : M t unit :=
  fun self =>
    (Return tt,
     mk (_led_count self) (py_max (py_min brightness float_1_0) float_0_0)
        (_pixels self) (_backend self)).

Definition num_pixels (self : t) : Z := _led_count self.

Definition get_brightness (self : t) : float := _brightness self.

Definition set_all_pixels (color : Color.t) : M t unit :=
  fun self =>
    (Return tt,
     mk (_led_count self) (_brightness self)
        (list_mul color (_led_count self)) (_backend self)).

End Strip.
Arguments t D : clear implicits.
End Strip.

(** [WS2812StripDriver.get_strip] *)
Definition get_strip {D} `{WS2812StripDriver.t D} (self : D) : Strip.t D :=
  Strip.__init__ self.

(** ** spidev.SpiDev: the transport

    The device is modelled by its configuration and the list of the frames
    handed to it, oldest first. Transmission itself is outside the model. *)

Module SpiDev.
Record t : Type := mk {
  bus : Z;
  device : Z;
  max_speed_hz : Z;
  mode : Z;
  lsbfirst : bool;
  sent : list (list Z)
}.

(** [SpiDev()] followed by [open(bus, device)] *)
Definition open (spi_bus spi_device : Z) : t :=
  mk spi_bus spi_device 0 0 false [].

(** [writebytes2(data)] *)
Definition writebytes2 (data : list Z) : M t unit :=
  fun dev =>
    (Return tt,
     mk (bus dev) (device dev) (max_speed_hz dev) (mode dev) (lsbfirst dev)
        (sent dev ++ [data])).
End SpiDev.

(** ** class WS2812SpiDriver(WS2812StripDriver) *)

Module WS2812SpiDriver.

Definition LED_ZERO : Z := 192.  (* 0b11000000 *)
Definition LED_ONE : Z := 252.   (* 0b11111100 *)
Definition PREAMBLE : Z := 42.

Record t : Type := mk {
  _led_count : Z;
  _device : SpiDev.t;
  _clear_buffer : list Z;
  _buffer : list Z
}.

Definition __init__ (spi_bus spi_device led_count : Z) : outcome t :=
  let device := SpiDev.open spi_bus spi_device in
  let device :=
    SpiDev.mk (SpiDev.bus device) (SpiDev.device device) 6500000 0 false
              (SpiDev.sent device) in
  let? clear_buffer := np.zeros (PREAMBLE + led_count * 24) in
  let? off := np.full (led_count * 24) LED_ZERO in
  let? clear_buffer :=
    np.setitem_from clear_buffer (Z.to_nat PREAMBLE) off in
  let? buffer := np.zeros (PREAMBLE + led_count * 24) in
  Return (mk led_count device clear_buffer buffer).

(** A call of a device method from a method of the driver. *)
Definition call_device {A} (c : M SpiDev.t A) : M t A :=
  fun self =>
    let (o, dev) := c (_device self) in
    (o, mk (_led_count self) dev (_clear_buffer self) (_buffer self)).

Definition write (buffer : list (list Z)) : M t unit :=
  fun self =>
    let flattened_colors := np.ravel buffer in
    let color_bits := np.unpackbits flattened_colors in
    match
      np.setitem_from (_buffer self) (Z.to_nat PREAMBLE)
        (np.where_eq_1 color_bits LED_ONE LED_ZERO)
    with
    | Return buffer' =>
        let self' :=
          mk (_led_count self) (_device self) (_clear_buffer self) buffer' in
        call_device (SpiDev.writebytes2 (_buffer self')) self'
    | Raise e => (Raise e, self)
    end.

Definition clear : M t unit :=
  fun self => call_device (SpiDev.writebytes2 (_clear_buffer self)) self.

Definition get_led_count (self : t) : Z := _led_count self.

#[global] Instance driver : WS2812StripDriver.t t := {
  write := write;
  clear := clear;
  get_led_count := get_led_count
}.

End WS2812SpiDriver.

(** ** The effects *)

Section Effects.
Context {D : Type} `{WS2812StripDriver.t D}.

(** [time.sleep(delay)] for a delay it accepts: it blocks and changes
    nothing the model holds. ([time.sleep] raises for a negative, NaN or
    too large delay; statements about effects that sleep name the delays
    they cover, see [EffectSpec.sleep_accepts].) *)
Definition time_sleep {S} (delay : float) : M S unit := ret tt.

Definition all_white_on : M (Strip.t D) unit :=
  do* Strip.set_all_pixels (Color.mk 255 255 255) in
  Strip.show.

Definition all_off : M (Strip.t D) unit := Strip.clear.

(** The body of the loop of [white_rotate], run [n] times on the local
    [pattern]. *)
Fixpoint white_rotate_loop (n : nat) (led_count : Z) (delay : float)
  (pattern : list Color.t) : M (Strip.t D) unit :=
  match n with
  | O => ret tt
  | S n' =>
      let* popped := lift (list_pop0 pattern) in
      let first := fst popped in
      let pattern := snd popped ++ [first] in
      do* for_each (range led_count)
            (fun i =>
               let* color := lift (list_getitem pattern i) in
               Strip.set_pixel_color i color) in
      do* Strip.show in
      do* time_sleep delay in
      white_rotate_loop n' led_count delay pattern
  end.

Definition white_rotate (iterations : option Z) (delay : float)
  : M (Strip.t D) unit :=
  fun strip =>
    let led_count := Strip.num_pixels strip in
    let iterations :=
      match iterations with
      | None => led_count * 5
      | Some n => n
      end in
    let pattern :=
      [Color.mk 255 255 255] ++ list_mul (Color.mk 0 0 0) (led_count - 1) in
    white_rotate_loop (Z.to_nat iterations) led_count delay pattern strip.

End Effects.

(** ** The remaining effects *)

Section MoreEffects.
Context {D : Type} `{WS2812StripDriver.t D}.

Definition all_blue_on : M (Strip.t D) unit :=
  do* Strip.set_all_pixels (Color.mk 0 0 255) in
  Strip.show.

Definition all_green_on : M (Strip.t D) unit :=
  do* Strip.set_all_pixels (Color.mk 0 255 0) in
  Strip.show.

End MoreEffects.

(** *** white_breathing

    Beside the exceptions of the strip, [white_breathing] can raise
    [ZeroDivisionError], from [step / (steps - 1)]. *)

Inductive effect_exn : Type :=
  | StripError (e : exn)
  | ZeroDivisionError.

Inductive effect_outcome : Type :=
  | Completed
  | Interrupted (e : effect_exn).

(** A procedure on a state [S] that returns nothing. *)
Definition E (S : Type) : Type := S -> effect_outcome * S.

Definition run_method {S} (c : M S unit) : E S :=
  fun s =>
    match c s with
    | (Return _, s') => (Completed, s')
    | (Raise e, s') => (Interrupted (StripError e), s')
    end.

Definition and_then {S} (c k : E S) : E S :=
  fun s =>
    match c s with
    | (Completed, s') => k s'
    | (Interrupted e, s') => (Interrupted e, s')
    end.

(** [for x in l: body x] *)
Fixpoint for_each_E {S A} (l : list A) (body : A -> E S) : E S :=
  match l with
  | [] => fun s => (Completed, s)
  | x :: l' => and_then (body x) (for_each_E l' body)
  end.

Definition float_div (x y : float) : float := SFdiv prec emax x y.
Definition float_sub (x y : float) : float := SFsub prec emax x y.

(** [a / b] on two [int]s: [None] stands for [ZeroDivisionError]. The
    quotient is the correctly rounded one, which for operands below [2 ^ 53]
    in absolute value (as step counts are) is the float quotient of the
    converted operands. *)
Definition py_true_div (a b : Z) : option float :=
  if b =? 0 then None
  else Some (float_div (float_of_int a) (float_of_int b)).

Section Breathing.
Context {D : Type} `{WS2812StripDriver.t D}.

(** The body of both inner loops, once [brightness] is computed (or its
    computation has raised). *)
Definition breathing_step (brightness : option float) (delay : float)
  : E (Strip.t D) :=
  match brightness with
  | None => fun strip => (Interrupted ZeroDivisionError, strip)
  | Some brightness =>
      and_then (run_method (Strip.set_brightness brightness))
        (and_then (run_method all_white_on)
           (run_method (time_sleep delay)))
  end.

Definition white_breathing (cycles steps : Z) (delay : float)
  : E (Strip.t D) :=
  fun strip =>
    let original_brightness := Strip.get_brightness strip in
    and_then
      (for_each_E (range cycles)
         (fun _ =>
            and_then
              (for_each_E (range steps)
                 (fun step =>
                    breathing_step (py_true_div step (steps - 1)) delay))
              (for_each_E (range steps)
                 (fun step =>
                    breathing_step
                      (option_map (float_sub (float_of_int 1))
                         (py_true_div step (steps - 1)))
                      delay))))
      (and_then
         (run_method (Strip.set_brightness original_brightness))
         (run_method all_white_on))
      strip.

End Breathing.

(** * Vocabulary of the statements *)

(** ** The SPI driver *)

Module WS2812SpiDriverSpec.
Import WS2812SpiDriver.

(** The calls a client can make on a driver, and a driver's state after a
    sequence of them (a call that raises leaves the driver as it is at that
    point, and the client may go on). *)
Inductive driver_call : Type :=
  | Write (buffer : list (list Z))
  | Clear.

Definition run_driver_call (c : driver_call) : M t unit :=
  match c with
  | Write buffer => write buffer
  | Clear => clear
  end.

Definition run_driver_calls (calls : list driver_call) (self : t) : t :=
  fold_left (fun d c => snd (run_driver_call c d)) calls self.

(** The frames handed to the transport so far, oldest first. *)
Definition transmitted (self : t) : list (list Z) := SpiDev.sent (_device self).

(** The frame that switches [n] LEDs off. *)
Definition clear_frame (n : Z) : list Z :=
  replicate (Z.to_nat PREAMBLE) 0 ++ replicate (Z.to_nat (n * 24)) LED_ZERO.

(** The frame [write] builds from the bytes of its argument. *)
Definition encoded_frame (bytes : list Z) : list Z :=
  replicate (Z.to_nat PREAMBLE) 0 ++
  map np.uint8 (np.where_eq_1 (np.unpackbits bytes) LED_ONE LED_ZERO).


(** What the LED chips read from a symbol. *)
Definition decode_symbol (s : Z) : option bool :=
  if s =? LED_ONE then Some true
  else if s =? LED_ZERO then Some false
  else None.

(** The invariant of a driver constructed for [n] LEDs. *)
Definition driver_wf (n : Z) (self : t) : Prop :=
  0 <= n /\
  _led_count self = n /\
  _clear_buffer self = clear_frame n /\
  exists data,
    _buffer self = replicate (Z.to_nat PREAMBLE) 0 ++ data /\
    length data = Z.to_nat (n * 24).

(** The driver [__init__ 0 0 n] returns, for [n >= 0]. *)
Definition fresh (n : Z) : t :=
  mk n (SpiDev.mk 0 0 6500000 0 false []) (clear_frame n)
     (replicate (Z.to_nat (PREAMBLE + n * 24)) 0).

End WS2812SpiDriverSpec.

(** ** Floats and channels *)

Module FloatSpec.

(** A brightness within bounds: a binary64 value [x] with
    [0.0 <= x <= 1.0]. *)
Definition in_unit_interval (x : float) : bool :=
  valid_binary prec emax x && float_le float_0_0 x && float_le x float_1_0.

(** [x] clamped into [0.0, 1.0]. *)
Definition clamp_unit (x : float) : float :=
  if float_lt x float_0_0 then float_0_0
  else if float_lt float_1_0 x then float_1_0
  else x.

(** An 8-bit channel value. *)
Definition is_uint8 (c : Z) : Prop := 0 <= c <= 255.

(** A color whose three channels are 8-bit values. *)
Definition color_ok (p : Color.t) : Prop :=
  is_uint8 (Color.r p) /\ is_uint8 (Color.g p) /\ is_uint8 (Color.b p).

(** The literals [-0.5], [1.5] and [0.1]. *)
Definition float_neg_0_5 : float := S754_finite true 4503599627370496 (-53).
Definition float_1_5 : float := S754_finite false 6755399441055744 (-52).
Definition float_0_1 : float := S754_finite false 7205759403792794 (-56).

(** The conversion of [c] to float is exact: a positive mantissa and a
    nonpositive exponent denoting [c]. It holds for 1 .. 255. *)
Definition exact_float_of_int (c : Z) : bool :=
  match float_of_int c with
  | S754_finite false m e => (e <=? 0) && (Z.pos m =? c * 2 ^ (- e))
  | _ => false
  end.

(** [below M k mrs]: the mantissa of the shift record [mrs], shifted back by
    [k] bits, does not exceed [M], and is strictly below it when [mrs]
    records lost bits. *)
Definition below (M k : Z) (mrs : shr_record) : Prop :=
  0 <= shr_m mrs /\
  shr_m mrs * 2 ^ k <= M /\
  (shr_r mrs || shr_s mrs = true -> shr_m mrs * 2 ^ k < M).

(** The literals [0.5] and [0.7]. *)
Definition float_0_5 : float := S754_finite false 4503599627370496 (-53).
Definition float_0_7 : float := S754_finite false 6305039478318694 (-53).

(** *** A channel times a brightness, in exact arithmetic

    The value of a nonnegative finite float [x] is the fraction
    [float_num x / float_den x] (0 / 1 for the other floats, which no
    brightness in [0.0, 1.0] is). *)
Definition float_num (x : float) : Z :=
  match x with
  | S754_finite false m e => Z.pos m * 2 ^ Z.max e 0
  | _ => 0
  end.

Definition float_den (x : float) : Z :=
  match x with
  | S754_finite _ _ e => 2 ^ Z.max (- e) 0
  | _ => 1
  end.

(** The integer part of the exact product of [c] and [x]. *)
Definition product_floor (c : Z) (x : float) : Z :=
  (c * float_num x) / float_den x.

(** For an integer [q] with [2 ^ (L - 1) < q <= 2 ^ L], where [L] is
    [Z.log2_up q], the floats just below [q] are [2 ^ (L - 53)] apart.
    [rounds_up c x q], used for a product below [q], says that the exact
    product of [c] and [x] is at most half that distance, [2 ^ (L - 54)],
    below [q]: it is at or above the midpoint between [q] and the float
    before it, and so rounds to [q] (at the midpoint too: ties go to the
    even mantissa, which for an integer up to 256 is that of [q]). *)
Definition rounds_up (c : Z) (x : float) (q : Z) : bool :=
  2 ^ (54 - Z.log2_up q) * (q * float_den x - c * float_num x)
  <=? float_den x.

(** What the channel [c] becomes at brightness [x], by integer arithmetic
    alone: the integer part of the exact product, or the next integer where
    the product rounds up to it (as in [10 * 0.7 = 7.0]). *)
Definition exact_scaled (x : float) (c : Z) : Z :=
  let f := product_floor c x in
  if rounds_up c x (f + 1) then f + 1 else f.


(** The conversion of [c] to float is exact, with an exponent of at most
    [-45]. It holds for 1 .. 255. *)
Definition canonical_float_of_int (c : Z) : bool :=
  match float_of_int c with
  | S754_finite false m e => (e <=? -45) && (Z.pos m =? c * 2 ^ (- e))
  | _ => false
  end.

(** [half_bit M k mrs]: the shift record [mrs] holds the integer part of
    [M / 2 ^ k] and, in its round bit, the next lower bit of [M]. *)
Definition half_bit (M k : Z) (mrs : shr_record) : Prop :=
  0 <= shr_m mrs /\
  (2 * shr_m mrs + Z.b2z (shr_r mrs)) * 2 ^ k <= 2 * M <
  (2 * shr_m mrs + Z.b2z (shr_r mrs) + 1) * 2 ^ k.

End FloatSpec.

(** ** The strip *)

Module StripSpec.
Import Strip.
Section StripSpec.
Context {D : Type} `{WS2812StripDriver.t D}.

(** The public operations of a strip that change it or transmit, and a
    strip's state after a sequence of them (a call that raises leaves the
    strip as it is at that point). *)
Inductive strip_call : Type :=
  | SetPixelColor (i : Z) (color : Color.t)
  | SetAllPixels (color : Color.t)
  | SetBrightness (brightness : float)
  | Show
  | Clear.

Definition run_strip_call (c : strip_call) : M (t D) unit :=
  match c with
  | SetPixelColor i color => set_pixel_color i color
  | SetAllPixels color => set_all_pixels color
  | SetBrightness brightness => set_brightness brightness
  | Show => show
  | Clear => clear
  end.

Definition run_strip_calls (calls : list strip_call) (self : t D) : t D :=
  fold_left (fun s c => snd (run_strip_call c s)) calls self.

(** The invariant of the pixel buffer: it holds [_led_count] colors. *)
Definition strip_wf (self : t D) : Prop :=
  Z.of_nat (length (_pixels self)) = _led_count self.

(** [self] with its pixel buffer replaced. *)
Definition with_pixels (self : t D) (pixels : list Color.t) : t D :=
  mk (_led_count self) (_brightness self) pixels (_backend self).

End StripSpec.

(** A channel value times the brightness, truncated toward zero. *)
Definition scaled (brightness : float) (c : Z) : Z :=
  float_trunc (float_mul (float_of_int c) brightness).

(** The row sent for a pixel: green, red, blue, each scaled. *)
Definition wire_triple (brightness : float) (p : Color.t) : list Z :=
  [scaled brightness (Color.g p);
   scaled brightness (Color.r p);
   scaled brightness (Color.b p)].

(** The row of the pixel [p] at the given brightness, by integer arithmetic
    alone: green, red, blue, each as [FloatSpec.exact_scaled] gives it. *)
Definition exact_row (brightness : float) (p : Color.t) : list Z :=
  [FloatSpec.exact_scaled brightness (Color.g p);
   FloatSpec.exact_scaled brightness (Color.r p);
   FloatSpec.exact_scaled brightness (Color.b p)].

(** Calls within the range the strip is made for: colors with 8-bit
    channels, and brightness arguments that are floats other than NaN. *)
Definition call_in_range (c : strip_call) : Prop :=
  match c with
  | SetPixelColor _ color | SetAllPixels color => FloatSpec.color_ok color
  | SetBrightness x => valid_binary prec emax x = true /\ x <> S754_nan
  | Show | Clear => True
  end.

End StripSpec.

(** ** The effects *)

Module EffectSpec.

(** A pixel is lit when some channel is not zero. *)
Definition is_lit (p : Color.t) : bool :=
  negb ((Color.r p =? 0) && (Color.g p =? 0) && (Color.b p =? 0)).

(** The indices of the lit pixels of a buffer, in increasing order. *)
Fixpoint lit_indices_from (i : nat) (pixels : list Color.t) : list nat :=
  match pixels with
  | [] => []
  | p :: pixels' =>
      if is_lit p then i :: lit_indices_from (S i) pixels'
      else lit_indices_from (S i) pixels'
  end.

Definition lit_indices (pixels : list Color.t) : list nat :=
  lit_indices_from 0 pixels.

(** A delay that [time.sleep] accepts and returns from: a float from [0.0]
    to [1e6] seconds. (It raises [ValueError] for a negative delay or NaN
    and [OverflowError] for a delay too large for the clock, from about
    [9.2e9] seconds on.) *)
Definition sleep_accepts (delay : float) : bool :=
  valid_binary prec emax delay && float_le float_0_0 delay &&
  float_le delay (float_of_int 1000000).


End EffectSpec.

(** ** Decoding a frame *)

Module CodecSpec.
Import WS2812SpiDriver WS2812SpiDriverSpec.

(** The byte with the given bits, most significant first. *)
Definition byte_of_bits (b7 b6 b5 b4 b3 b2 b1 b0 : bool) : Z :=
  Z.b2z b7 * 128 + Z.b2z b6 * 64 + Z.b2z b5 * 32 + Z.b2z b4 * 16 +
  Z.b2z b3 * 8 + Z.b2z b2 * 4 + Z.b2z b1 * 2 + Z.b2z b0.

(** What a chain of LED chips reads from a sequence of symbols: one byte per
    eight symbols, first symbol first; nothing when a symbol is neither
    [LED_ONE] nor [LED_ZERO] or when symbols are left over. *)
Fixpoint decode_symbols (symbols : list Z) : option (list Z) :=
  match symbols with
  | [] => Some []
  | s7 :: s6 :: s5 :: s4 :: s3 :: s2 :: s1 :: s0 :: rest =>
      match decode_symbol s7, decode_symbol s6, decode_symbol s5,
            decode_symbol s4, decode_symbol s3, decode_symbol s2,
            decode_symbol s1, decode_symbol s0, decode_symbols rest with
      | Some b7, Some b6, Some b5, Some b4, Some b3, Some b2, Some b1,
        Some b0, Some bytes =>
          Some (byte_of_bits b7 b6 b5 b4 b3 b2 b1 b0 :: bytes)
      | _, _, _, _, _, _, _, _, _ => None
      end
  | _ => None
  end.

(** The bytes carried by a frame, after its preamble. *)
Definition decode_frame (frame : list Z) : option (list Z) :=
  decode_symbols (drop (Z.to_nat PREAMBLE) frame).

(** A frame for [n] LEDs: the right length, a zero preamble, then symbols
    only. *)
Definition frame_ok (n : Z) (frame : list Z) : Prop :=
  Z.of_nat (length frame) = PREAMBLE + n * 24 /\
  take (Z.to_nat PREAMBLE) frame = replicate (Z.to_nat PREAMBLE) 0 /\
  Forall (fun s => s = LED_ONE \/ s = LED_ZERO)
         (drop (Z.to_nat PREAMBLE) frame).

(** A call that the driver for [n] LEDs carries out, and so transmits. *)
Definition transmits (n : Z) (c : driver_call) : bool :=
  match c with
  | Write buffer => Z.of_nat (length (np.ravel buffer)) =? n * 3
  | Clear => true
  end.

(** The bytes [0 .. 255] survive unpacking into bits and packing again. *)
Definition byte_round_trip (x : Z) : bool :=
  byte_of_bits (Z.testbit x 7) (Z.testbit x 6) (Z.testbit x 5)
    (Z.testbit x 4) (Z.testbit x 3) (Z.testbit x 2) (Z.testbit x 1)
    (Z.testbit x 0) =? x.

End CodecSpec.

(** ** Strips on the SPI driver *)

Module SpiStripSpec.

(** A strip of [n] LEDs on an SPI driver built for [n] LEDs. *)
Definition spi_strip (n : Z) (self : Strip.t WS2812SpiDriver.t) : Prop :=
  Strip._led_count self = n /\
  Z.of_nat (length (Strip._pixels self)) = n /\
  WS2812SpiDriverSpec.driver_wf n (Strip._backend self).

(** The frames the strip's driver has handed to the transport. *)
Definition frames (self : Strip.t WS2812SpiDriver.t) : list (list Z) :=
  WS2812SpiDriverSpec.transmitted (Strip._backend self).

(** The frame in which each of [n] LEDs receives the bytes [g], [r], [b]. *)
Definition uniform_frame (n : Z) (g r b : Z) : list Z :=
  WS2812SpiDriverSpec.encoded_frame
    (concat (replicate (Z.to_nat n) [g; r; b])).

(** The buffer with one white pixel at position [p] among [n] black ones. *)
Definition one_lit (n : Z) (p : Z) : list Color.t :=
  <[Z.to_nat p := Color.mk 255 255 255]>
    (replicate (Z.to_nat n) (Color.mk 0 0 0)).

(** The brightness arguments of a sequence of calls are floats other than
    NaN. *)
Definition brightness_args_ok (calls : list StripSpec.strip_call) : Prop :=
  Forall (fun c =>
            match c with
            | StripSpec.SetBrightness x =>
                valid_binary prec emax x = true /\ x <> S754_nan
            | _ => True
            end) calls.

(** The strip calls that transmit: [show] and [clear]. *)
Definition strip_transmits (c : StripSpec.strip_call) : bool :=
  match c with
  | StripSpec.Show | StripSpec.Clear => true
  | _ => false
  end.


End SpiStripSpec.

(** * Proofs *)

(** ** The SPI driver *)

Module WS2812SpiDriverFacts.
Import WS2812SpiDriver WS2812SpiDriverSpec.

Lemma length_unpackbits (a : list Z) :
  length (np.unpackbits a) = (8 * length a)%nat.
Proof.
  induction a as [|x a IH]; [reflexivity|].
  unfold np.unpackbits in *; cbn [flat_map].
  rewrite length_app, IH. cbn. lia.
Qed.

Lemma length_where_eq_1 (bits : list Z) (x y : Z) :
  length (np.where_eq_1 bits x y) = length bits.
Proof. apply length_map. Qed.

Lemma setitem_from_preamble (pre data v : list Z) :
  length v = length data ->
  np.setitem_from (pre ++ data) (length pre) v = Return (pre ++ map np.uint8 v).
Proof.
  intros Hlen. unfold np.setitem_from.
  rewrite drop_app_length, take_app_length.
  destruct (decide (length v = length data)); [reflexivity | contradiction].
Qed.

Lemma setitem_from_mismatch (pre data v : list Z) :
  length v <> length data -> length v <> 1%nat ->
  np.setitem_from (pre ++ data) (length pre) v = Raise ValueError.
Proof.
  intros Hlen H1. unfold np.setitem_from.
  rewrite drop_app_length.
  destruct (decide (length v = length data)); [contradiction|].
  destruct v as [|x [|y v]]; cbn in *; congruence.
Qed.

Lemma driver_init_wf (spi_bus spi_device n : Z) (d0 : t) :
  __init__ spi_bus spi_device n = Return d0 -> driver_wf n d0.
Proof.
  unfold __init__, np.zeros, np.full.
  destruct (PREAMBLE + n * 24 <? 0) eqn:E1; [discriminate|].
  destruct (n * 24 <? 0) eqn:E2; [discriminate|].
  cbn [obind].
  replace (Z.to_nat (PREAMBLE + n * 24))
    with (Z.to_nat PREAMBLE + Z.to_nat (n * 24))%nat by (unfold PREAMBLE; lia).
  rewrite replicate_add.
  replace (Z.to_nat PREAMBLE) with (length (replicate (Z.to_nat PREAMBLE) 0)) at 2
    by apply length_replicate.
  rewrite setitem_from_preamble by (rewrite !length_replicate; reflexivity).
  cbn [obind]. intros [= <-].
  unfold driver_wf; cbn [_led_count _clear_buffer _buffer].
  repeat split; try lia.
  - unfold clear_frame. f_equal.
    change (map np.uint8) with (fmap (M:=list) np.uint8).
    rewrite fmap_replicate. reflexivity.
  - eexists; split; [reflexivity|]. apply length_replicate.
Qed.

(** Construction succeeds for every nonnegative LED count. *)
Lemma init_fresh (n : Z) : 0 <= n -> __init__ 0 0 n = Return (fresh n).
Proof.
  intros Hn. unfold __init__, np.zeros, np.full.
  destruct (Z.ltb_spec (PREAMBLE + n * 24) 0) as [Hneg|_];
    [unfold PREAMBLE in Hneg; lia|].
  destruct (Z.ltb_spec (n * 24) 0) as [Hneg|_]; [lia|].
  cbn [obind].
  replace (Z.to_nat (PREAMBLE + n * 24))
    with (Z.to_nat PREAMBLE + Z.to_nat (n * 24))%nat by (unfold PREAMBLE; lia).
  rewrite replicate_add.
  replace (Z.to_nat PREAMBLE)
    with (length (replicate (Z.to_nat PREAMBLE) 0)) at 2
    by apply length_replicate.
  rewrite setitem_from_preamble by (rewrite !length_replicate; reflexivity).
  cbn [obind]. unfold fresh, clear_frame. do 2 f_equal.
  - change (map np.uint8) with (fmap (M:=list) np.uint8).
    rewrite fmap_replicate. reflexivity.
  - rewrite <- replicate_add. f_equal. unfold PREAMBLE. lia.
Qed.





Lemma encoded_frame_length (bytes : list Z) :
  Z.of_nat (length (encoded_frame bytes)) =
  PREAMBLE + Z.of_nat (length bytes) * 8.
Proof.
  unfold encoded_frame.
  rewrite length_app, length_replicate, length_map, length_where_eq_1,
    length_unpackbits.
  unfold PREAMBLE. lia.
Qed.



Lemma write_wf_ok (n : Z) (self : t) (buffer : list (list Z)) :
  driver_wf n self ->
  Z.of_nat (length (np.ravel buffer)) = n * 3 ->
  write buffer self =
  (Return tt,
   mk (_led_count self)
      (SpiDev.mk (SpiDev.bus (_device self)) (SpiDev.device (_device self))
         (SpiDev.max_speed_hz (_device self)) (SpiDev.mode (_device self))
         (SpiDev.lsbfirst (_device self))
         (SpiDev.sent (_device self) ++ [encoded_frame (np.ravel buffer)]))
      (_clear_buffer self)
      (encoded_frame (np.ravel buffer))).
Proof.
  intros (Hn & _ & _ & data & Hbuf & Hdata) Hlen.
  unfold write. rewrite Hbuf.
  replace (Z.to_nat PREAMBLE) with (length (replicate (Z.to_nat PREAMBLE) 0)) at 2
    by apply length_replicate.
  rewrite setitem_from_preamble.
  - reflexivity.
  - rewrite length_where_eq_1, length_unpackbits, Hdata. lia.
Qed.

Lemma write_wf_mismatch (n : Z) (self : t) (buffer : list (list Z)) :
  driver_wf n self ->
  Z.of_nat (length (np.ravel buffer)) <> n * 3 ->
  write buffer self = (Raise ValueError, self).
Proof.
  intros (Hn & _ & _ & data & Hbuf & Hdata) Hlen.
  unfold write. rewrite Hbuf.
  replace (Z.to_nat PREAMBLE) with (length (replicate (Z.to_nat PREAMBLE) 0)) at 1
    by apply length_replicate.
  rewrite setitem_from_mismatch; [reflexivity| |];
    rewrite length_where_eq_1, length_unpackbits; lia.
Qed.

Lemma driver_run_call_wf (n : Z) (c : driver_call) (self : t) :
  driver_wf n self -> driver_wf n (snd (run_driver_call c self)).
Proof.
  intros Hwf. destruct c as [buffer|]; cbn [run_driver_call].
  - destruct (Z.eq_dec (Z.of_nat (length (np.ravel buffer))) (n * 3)) as [He|Hne].
    + rewrite (write_wf_ok n) by assumption. cbn [snd].
      destruct Hwf as (Hn & Hc & Hcb & _).
      unfold driver_wf; cbn [_led_count _clear_buffer _buffer].
      repeat split; try assumption.
      eexists; split; [reflexivity|].
      rewrite length_map, length_where_eq_1, length_unpackbits. lia.
    + rewrite (write_wf_mismatch n) by assumption. exact Hwf.
  - exact Hwf.
Qed.

Lemma driver_run_calls_wf (n : Z) (calls : list driver_call) (self : t) :
  driver_wf n self -> driver_wf n (run_driver_calls calls self).
Proof.
  revert self. induction calls as [|c calls IH]; intros self Hwf; [exact Hwf|].
  cbn. apply IH, driver_run_call_wf, Hwf.
Qed.



(** C5. A driver constructed for [n] LEDs, after any sequence of calls, when
    given a buffer whose number of bytes is not [n * 3], raises (the
    [ValueError] of the slice assignment) before anything is transmitted and
    leaves its frame buffer as it was: the data is neither cut nor padded. *)
Theorem write_rejects_wrong_length
  (spi_bus spi_device n : Z) (d0 : t) (calls : list driver_call)
  (buffer : list (list Z)) :
  __init__ spi_bus spi_device n = Return d0 ->
  Z.of_nat (length (np.ravel buffer)) <> n * 3 ->
  write buffer (run_driver_calls calls d0) = (Raise ValueError, run_driver_calls calls d0).
Proof.
  intros Hinit Hlen.
  apply (write_wf_mismatch n); [|exact Hlen].
  apply driver_run_calls_wf, (driver_init_wf _ _ _ _ Hinit).
Qed.

Lemma write_rejects_wrong_length_witness :
  write [[1; 2]]
    (run_driver_calls [Write [[7; 7; 7]]]
       (fresh 1)) =
  (Raise ValueError,
   run_driver_calls [Write [[7; 7; 7]]]
     (fresh 1)).
Proof.
  apply (write_rejects_wrong_length 0 0 1).
  - reflexivity.
  - cbn. lia.
Defined.

(** C3. The clear frame is built by the constructor and never changes: after
    any sequence of calls, [clear] returns normally and hands the transport
    exactly the buffer the constructor built, and keeps it. That frame has
    length [PREAMBLE + n * 24], is zero on the preamble, and holds
    [LED_ZERO], which decodes to a zero bit, everywhere after it. *)
Theorem clear_transmits_clear_frame
  (spi_bus spi_device n : Z) (d0 : t) (calls : list driver_call) :
  __init__ spi_bus spi_device n = Return d0 ->
  fst (clear (run_driver_calls calls d0)) = Return tt /\
  transmitted (snd (clear (run_driver_calls calls d0))) =
    transmitted (run_driver_calls calls d0) ++ [_clear_buffer d0] /\
  _clear_buffer (snd (clear (run_driver_calls calls d0))) = _clear_buffer d0 /\
  Z.of_nat (length (_clear_buffer d0)) = PREAMBLE + n * 24 /\
  (forall i, 0 <= i < PREAMBLE -> _clear_buffer d0 !! Z.to_nat i = Some 0) /\
  (forall j, 0 <= j < n * 24 ->
     _clear_buffer d0 !! Z.to_nat (PREAMBLE + j) = Some LED_ZERO) /\
  decode_symbol LED_ZERO = Some false.
Proof.
  intros Hinit.
  pose proof (driver_init_wf _ _ _ _ Hinit) as (Hn & _ & Hcb0 & _).
  pose proof (driver_run_calls_wf n calls d0 (driver_init_wf _ _ _ _ Hinit))
    as (_ & _ & Hcb & _).
  unfold clear, call_device, SpiDev.writebytes2, transmitted.
  cbn [fst snd _device _clear_buffer SpiDev.sent].
  rewrite Hcb, Hcb0. unfold clear_frame.
  repeat split.
  - rewrite length_app, !length_replicate. unfold PREAMBLE. lia.
  - intros i Hi. rewrite lookup_app_l by (rewrite length_replicate; lia).
    apply lookup_replicate_2. lia.
  - intros j Hj.
    rewrite lookup_app_r by (rewrite length_replicate; unfold PREAMBLE; lia).
    rewrite length_replicate. apply lookup_replicate_2.
    unfold PREAMBLE. lia.
Qed.

Lemma clear_transmits_clear_frame_witness :
  transmitted
    (snd (clear
            (run_driver_calls [Write [[9; 9; 9]; [1; 2; 3]]; Clear]
               (fresh 2)))) =
  transmitted
    (run_driver_calls [Write [[9; 9; 9]; [1; 2; 3]]; Clear]
       (fresh 2)) ++ [clear_frame 2].
Proof.
  apply (clear_transmits_clear_frame 0 0 2
           (fresh 2)).
  reflexivity.
Defined.

End WS2812SpiDriverFacts.

(** ** Floats: a channel times a brightness stays a channel *)

Module FloatFacts.
Import FloatSpec.

(** Right shifts with sticky bits stay below the exact value. *)

Lemma shr_1_below (M k : Z) (mrs : shr_record) :
  0 <= k -> below M k mrs -> below M (k + 1) (shr_1 mrs).
Proof.
  intros Hk (Hm & Hle & Hlt).
  destruct mrs as [m r s]. cbn [shr_m shr_r shr_s] in *.
  unfold below. rewrite Z.pow_add_r, Z.pow_1_r by lia.
  assert (Hpow : 0 < 2 ^ k) by (apply Z.pow_pos_nonneg; lia).
  set (P := 2 ^ k) in *.
  assert (Hhalf : 0 <= shr_m (shr_1 (Build_shr_record m r s)) /\
                  shr_m (shr_1 (Build_shr_record m r s)) * 2 <= m /\
                  (shr_r (shr_1 (Build_shr_record m r s)) = true ->
                   shr_m (shr_1 (Build_shr_record m r s)) * 2 < m) /\
                  shr_s (shr_1 (Build_shr_record m r s)) = r || s).
  { destruct m as [|[p|p|]|p]; cbn [shr_1 shr_m shr_r shr_s]; try lia;
      repeat split; try lia; discriminate. }
  destruct Hhalf as (H0 & H2 & Hr & Hs).
  set (m' := shr_m (shr_1 (Build_shr_record m r s))) in *.
  split; [exact H0|]. split.
  - replace (m' * (P * 2)) with (m' * 2 * P) by ring.
    apply Z.le_trans with (m * P); [|exact Hle].
    apply Z.mul_le_mono_nonneg_r; lia.
  - rewrite Hs. intros H.
    destruct (shr_r (shr_1 (Build_shr_record m r s))) eqn:Er.
    + specialize (Hr eq_refl).
      replace (m' * (P * 2)) with (m' * 2 * P) by ring.
      apply Z.lt_le_trans with (m * P); [|exact Hle].
      apply Z.mul_lt_mono_pos_r; lia.
    + cbn [orb] in H. specialize (Hlt H).
      replace (m' * (P * 2)) with (m' * 2 * P) by ring.
      apply Z.le_lt_trans with (m * P); [|exact Hlt].
      apply Z.mul_le_mono_nonneg_r; lia.
Qed.

Lemma iter_shr_1_below (p : positive) (M k : Z) (mrs : shr_record) :
  0 <= k -> below M k mrs -> below M (k + Z.pos p) (SpecFloat.iter_pos shr_1 p mrs).
Proof.
  revert k mrs. induction p as [p IH|p IH|]; intros k mrs Hk Hb; cbn [SpecFloat.iter_pos].
  - replace (k + Z.pos p~1) with (k + 1 + Z.pos p + Z.pos p) by lia.
    apply IH; [lia|]. apply IH; [lia|]. apply shr_1_below; assumption.
  - replace (k + Z.pos p~0) with (k + Z.pos p + Z.pos p) by lia.
    apply IH; [lia|]. apply IH; assumption.
  - apply shr_1_below; assumption.
Qed.

Lemma shr_below (M : Z) (mrs : shr_record) (e n : Z) :
  below M 0 mrs ->
  below M (snd (shr mrs e n) - e) (fst (shr mrs e n)).
Proof.
  intros Hb. destruct n as [|p|p]; cbn [shr fst snd].
  - rewrite Z.sub_diag. exact Hb.
  - replace (e + Z.pos p - e) with (0 + Z.pos p) by lia.
    apply iter_shr_1_below; [lia | exact Hb].
  - rewrite Z.sub_diag. exact Hb.
Qed.


Lemma digits2_pos_bounds (m : positive) :
  2 ^ (Z.pos (digits2_pos m) - 1) <= Z.pos m < 2 ^ Z.pos (digits2_pos m).
Proof.
  induction m as [m IH|m IH|]; cbn [digits2_pos].
  - rewrite Pos2Z.inj_succ, Pos2Z.inj_xI.
    replace (Z.succ (Z.pos (digits2_pos m)) - 1)
      with (Z.pos (digits2_pos m) - 1 + 1) by lia.
    rewrite Z.pow_succ_r, Z.pow_add_r, Z.pow_1_r by lia. lia.
  - rewrite Pos2Z.inj_succ. change (Z.pos m~0) with (2 * Z.pos m).
    replace (Z.succ (Z.pos (digits2_pos m)) - 1)
      with (Z.pos (digits2_pos m) - 1 + 1) by lia.
    rewrite Z.pow_succ_r, Z.pow_add_r, Z.pow_1_r by lia. lia.
  - cbn. lia.
Qed.

(** A mantissa bounded by [c * 2 ^ (- e)] with [c < 256] has at most
    [8 - e] digits. *)
Lemma Zdigits2_small (c m e : Z) :
  0 < c < 256 -> 0 <= m -> e <= 0 -> m <= c * 2 ^ (- e) ->
  Zdigits2 m + e <= 8.
Proof.
  intros Hc Hm He Hle.
  destruct m as [|p|p]; cbn [Zdigits2]; [lia| |lia].
  destruct (digits2_pos_bounds p) as [Hlo _].
  assert (Hpow : 0 < 2 ^ (- e)) by (apply Z.pow_pos_nonneg; lia).
  assert (Hlt : 2 ^ (Z.pos (digits2_pos p) - 1) < 2 ^ (8 - e)).
  { replace (8 - e) with (8 + - e) by lia.
    rewrite Z.pow_add_r by lia. change (2 ^ 8) with 256. nia. }
  apply Z.pow_lt_mono_r_iff in Hlt; lia.
Qed.

(** One rounding step of [binary_round_aux] on an exact nonnegative mantissa
    bounded by the integer [c]: the exponent stays nonpositive, and both the
    shifted mantissa and its rounding to nearest even stay bounded by [c]. *)
Lemma round_step_bound (c m e : Z) :
  0 < c < 256 -> 0 <= m -> e <= 0 -> m <= c * 2 ^ (- e) ->
  snd (shr_fexp prec emax m e loc_Exact) <= 0 /\
  0 <= shr_m (fst (shr_fexp prec emax m e loc_Exact)) /\
  shr_m (fst (shr_fexp prec emax m e loc_Exact)) <=
    round_nearest_even
      (shr_m (fst (shr_fexp prec emax m e loc_Exact)))
      (loc_of_shr_record (fst (shr_fexp prec emax m e loc_Exact))) /\
  round_nearest_even
    (shr_m (fst (shr_fexp prec emax m e loc_Exact)))
    (loc_of_shr_record (fst (shr_fexp prec emax m e loc_Exact)))
  <= c * 2 ^ (- snd (shr_fexp prec emax m e loc_Exact)).
Proof.
  intros Hc Hm He Hle.
  pose proof (Zdigits2_small c m e Hc Hm He Hle) as Hdig.
  unfold shr_fexp. cbn [shr_record_of_loc].
  assert (Hfexp : fexp prec emax (Zdigits2 m + e) <= 0)
    by (unfold fexp, SpecFloat.emin, prec, emax; lia).
  remember (fexp prec emax (Zdigits2 m + e) - e) as n eqn:En.
  assert (Hb0 : below m 0 (Build_shr_record m false false)).
  { unfold below; cbn [shr_m shr_r shr_s orb].
    rewrite Z.pow_0_r. repeat split; try lia; discriminate. }
  pose proof (shr_below m _ e n Hb0) as Hb.
  assert (He' : e <= snd (shr (Build_shr_record m false false) e n) <= 0).
  { destruct n as [|p|p]; cbn [shr snd]; lia. }
  destruct (shr (Build_shr_record m false false) e n) as [[q r s] e'].
  cbn [fst snd shr_m shr_r shr_s] in *.
  destruct Hb as (Hq & Hqle & Hqlt). cbn [shr_m shr_r shr_s] in *.
  set (k := e' - e) in *.
  assert (Hk : 0 <= k) by (unfold k; lia).
  assert (Hpk : 0 < 2 ^ k) by (apply Z.pow_pos_nonneg; lia).
  assert (Hsplit : c * 2 ^ (- e) = c * 2 ^ (- e') * 2 ^ k).
  { rewrite <- Z.mul_assoc, <- Z.pow_add_r by (unfold k; lia).
    do 2 f_equal. unfold k. lia. }
  assert (Hqb : q <= c * 2 ^ (- e')).
  { apply Z.mul_le_mono_pos_r with (2 ^ k); [exact Hpk|].
    rewrite <- Hsplit. lia. }
  assert (Hqs : r || s = true -> q + 1 <= c * 2 ^ (- e')).
  { intros H. specialize (Hqlt H).
    assert (q < c * 2 ^ (- e')); [|lia].
    apply Z.mul_lt_mono_pos_r with (2 ^ k); [exact Hpk|].
    rewrite <- Hsplit. lia. }
  split; [lia|]. split; [exact Hq|].
  destruct r, s; cbn [loc_of_shr_record round_nearest_even orb] in *;
    try destruct (Z.even q); split; try lia; apply Hqs; reflexivity.
Qed.

(** Rounding a positive value that does not exceed an integer [c < 256]
    gives zero or a positive finite float that does not exceed [c]. *)
Lemma binary_round_aux_bound (c : Z) (mx : positive) (ex : Z) :
  0 < c < 256 -> ex <= 0 -> Z.pos mx <= c * 2 ^ (- ex) ->
  binary_round_aux prec emax false (Z.pos mx) ex loc_Exact = S754_zero false \/
  exists m e,
    binary_round_aux prec emax false (Z.pos mx) ex loc_Exact =
      S754_finite false m e /\
    e <= 0 /\ Z.pos m <= c * 2 ^ (- e).
Proof.
  intros Hc Hex Hle. unfold binary_round_aux.
  destruct (round_step_bound c (Z.pos mx) ex Hc ltac:(lia) Hex Hle)
    as (He1 & Hq1 & Hr1 & Hb1).
  destruct (shr_fexp prec emax (Z.pos mx) ex loc_Exact) as [mrs1 e1].
  cbn [fst snd] in *.
  set (m1 := round_nearest_even (shr_m mrs1) (loc_of_shr_record mrs1)) in *.
  destruct (round_step_bound c m1 e1 Hc ltac:(lia) He1 Hb1)
    as (He2 & Hq2 & Hr2 & Hb2).
  destruct (shr_fexp prec emax m1 e1 loc_Exact) as [mrs2 e2].
  cbn [fst snd] in *.
  destruct (shr_m mrs2) as [|m2|m2] eqn:Em2; [left; reflexivity| |lia].
  right. exists m2, e2.
  destruct (Z.leb_spec e2 (emax - prec)) as [_|Hbad];
    [|unfold emax, prec in Hbad; lia].
  split; [reflexivity|]. split; [exact He2|]. lia.
Qed.


Lemma float_of_int_exact (c : Z) :
  0 < c < 256 ->
  exists m e,
    float_of_int c = S754_finite false m e /\
    e <= 0 /\ Z.pos m = c * 2 ^ (- e).
Proof.
  intros Hc.
  assert (Hall : forallb exact_float_of_int (map Z.of_nat (seq 1 255)) = true)
    by (vm_compute; reflexivity).
  rewrite forallb_forall in Hall.
  assert (Hin : In c (map Z.of_nat (seq 1 255))).
  { rewrite <- (Z2Nat.id c) by lia. apply in_map, in_seq. lia. }
  specialize (Hall c Hin). unfold exact_float_of_int in Hall.
  destruct (float_of_int c) as [| | |[|] m e]; try discriminate.
  apply andb_true_iff in Hall as [He Hm].
  exists m, e. split; [reflexivity|]. split; lia.
Qed.

(** A valid positive float that is at most [1.0] has a nonpositive exponent
    and a mantissa of at most [2 ^ (- e)]. *)
Lemma le_1_0_mantissa (m : positive) (e : Z) :
  valid_binary prec emax (S754_finite false m e) = true ->
  float_le (S754_finite false m e) float_1_0 = true ->
  e <= 0 /\ Z.pos m <= 2 ^ (- e).
Proof.
  cbn [valid_binary]. unfold bounded, canonical_mantissa, fexp, SpecFloat.emin.
  unfold prec, emax. intros Hvalid Hle.
  apply andb_true_iff in Hvalid as [Hcanon _].
  apply Z.eqb_eq in Hcanon.
  destruct (digits2_pos_bounds m) as [_ Hhi].
  unfold float_le, SFleb, float_1_0 in Hle. cbn [SFcompare] in Hle.
  destruct (Z.compare_spec e (-52)) as [He|He|He]; [| |discriminate].
  - subst e. split; [lia|]. change (2 ^ (- -52)) with 4503599627370496.
    assert (Hm : (m <= 4503599627370496)%positive).
    { unfold Pos.le, Pos.compare. intros Hgt. rewrite Hgt in Hle.
      discriminate Hle. }
    exact Hm.
  - split; [lia|].
    apply Z.le_trans with (2 ^ 53); [|apply Z.pow_le_mono_r; lia].
    assert (Hd : Z.pos (digits2_pos m) <= 53) by lia.
    apply Z.lt_le_incl, Z.lt_le_trans with (2 ^ Z.pos (digits2_pos m));
      [exact Hhi | apply Z.pow_le_mono_r; lia].
Qed.

Lemma float_trunc_bound (c : Z) (m : positive) (e : Z) :
  e <= 0 -> Z.pos m <= c * 2 ^ (- e) ->
  0 <= float_trunc (S754_finite false m e) <= c.
Proof.
  intros He Hm. cbn [float_trunc cond_Zopp].
  rewrite Z.shiftl_div_pow2 by exact He.
  assert (Hpow : 0 < 2 ^ (- e)) by (apply Z.pow_pos_nonneg; lia).
  split.
  - apply Z.div_pos; lia.
  - apply Z.div_le_upper_bound; lia.
Qed.

(** The product of an 8-bit channel value [c] and a brightness in the unit
    interval, truncated, lies between 0 and [c]. *)
Lemma scaled_channel_range (c : Z) (brightness : float) :
  is_uint8 c -> in_unit_interval brightness = true ->
  0 <= float_trunc (float_mul (float_of_int c) brightness) <= c.
Proof.
  unfold is_uint8, in_unit_interval. intros Hc Hb.
  apply andb_true_iff in Hb as [Hb Hle1].
  apply andb_true_iff in Hb as [Hvalid Hle0].
  destruct brightness as [sb|sb| |sb mb eb].
  - (* zero *)
    destruct (Z.eq_dec c 0) as [->|Hne]; [cbn; lia|].
    destruct (float_of_int_exact c) as (mc & ec & -> & _); [lia|].
    cbn. lia.
  - (* infinity *)
    destruct sb; [discriminate Hle0 | discriminate Hle1].
  - discriminate Hle0.
  - destruct sb; [discriminate Hle0|].
    destruct (le_1_0_mantissa mb eb Hvalid Hle1) as [Heb Hmb].
    destruct (Z.eq_dec c 0) as [->|Hne]; [cbn; lia|].
    destruct (float_of_int_exact c) as (mc & ec & -> & Hec & Hmc); [lia|].
    unfold float_mul. cbn [SFmul xorb].
    destruct (binary_round_aux_bound c (mc * mb) (ec + eb))
      as [-> | (m & e & -> & He & Hm)]; try lia.
    + rewrite Pos2Z.inj_mul, Hmc.
      replace (- (ec + eb)) with (- ec + - eb) by lia.
      rewrite Z.pow_add_r by lia.
      assert (0 < 2 ^ (- ec)) by (apply Z.pow_pos_nonneg; lia).
      rewrite <- Z.mul_assoc. apply Z.mul_le_mono_nonneg_l; [lia|].
      apply Z.mul_le_mono_nonneg_l; lia.
    + cbn. lia.
    + apply float_trunc_bound; assumption.
Qed.

Lemma astype_uint8_scaled (c : Z) (brightness : float) :
  is_uint8 c -> in_unit_interval brightness = true ->
  np.astype_uint8 (float_mul (float_of_int c) brightness) =
  float_trunc (float_mul (float_of_int c) brightness).
Proof.
  intros Hc Hb. unfold np.astype_uint8, np.uint8.
  pose proof (scaled_channel_range c brightness Hc Hb).
  unfold is_uint8 in Hc. apply Z.mod_small. lia.
Qed.

End FloatFacts.

(** ** Floats: what a channel becomes at a brightness *)

Module ScalingFacts.
Import FloatSpec FloatFacts StripSpec.

(** Right shifts compute integer parts. *)

Lemma shr_1_m (mrs : shr_record) :
  0 <= shr_m mrs ->
  shr_m (shr_1 mrs) = shr_m mrs / 2.
Proof.
  destruct mrs as [m r s]. cbn [shr_m]. intros Hm.
  destruct m as [|[p|p|]|p]; cbn [shr_1 shr_m]; try lia.
  - reflexivity.
  - apply Z.div_unique with 1; [lia|]. rewrite Pos2Z.inj_xI. ring.
  - apply Z.div_unique with 0; [lia|].
    change (Z.pos p~0) with (2 * Z.pos p). ring.
  - reflexivity.
Qed.

Lemma iter_shr_1_m (p : positive) (mrs : shr_record) :
  0 <= shr_m mrs ->
  shr_m (SpecFloat.iter_pos shr_1 p mrs) = shr_m mrs / 2 ^ Z.pos p.
Proof.
  assert (Hnn : forall q x, 0 <= shr_m x ->
            (forall y, 0 <= shr_m y ->
               shr_m (SpecFloat.iter_pos shr_1 q y) = shr_m y / 2 ^ Z.pos q) ->
            0 <= shr_m (SpecFloat.iter_pos shr_1 q x)).
  { intros q x Hx Hq. rewrite Hq by exact Hx.
    apply Z.div_pos; [exact Hx | apply Z.pow_pos_nonneg; lia]. }
  revert mrs. induction p as [p IH|p IH|]; intros mrs Hm;
    cbn [SpecFloat.iter_pos].
  - assert (H1 : 0 <= shr_m (shr_1 mrs)).
    { rewrite shr_1_m by exact Hm. apply Z.div_pos; lia. }
    rewrite IH by (apply Hnn; assumption).
    rewrite IH by exact H1. rewrite shr_1_m by exact Hm.
    rewrite !Z.div_div by (try apply Z.pow_pos_nonneg; lia).
    f_equal. rewrite Pos2Z.inj_xI.
    replace (2 * Z.pos p + 1) with (1 + Z.pos p + Z.pos p) by lia.
    rewrite !Z.pow_add_r by lia. rewrite Z.pow_1_r. ring.
  - rewrite IH by (apply Hnn; assumption).
    rewrite IH by exact Hm.
    rewrite !Z.div_div by (try apply Z.pow_pos_nonneg; lia).
    f_equal. change (Z.pos p~0) with (2 * Z.pos p).
    replace (2 * Z.pos p) with (Z.pos p + Z.pos p) by lia.
    rewrite !Z.pow_add_r by lia. ring.
  - rewrite shr_1_m by exact Hm. reflexivity.
Qed.

Lemma shr_m_floor (mrs : shr_record) (e n : Z) :
  0 <= shr_m mrs ->
  shr_m (fst (shr mrs e n)) = shr_m mrs / 2 ^ (snd (shr mrs e n) - e).
Proof.
  intros Hm. destruct n as [|p|p]; cbn [shr fst snd].
  - rewrite Z.sub_diag, Z.pow_0_r, Z.div_1_r. reflexivity.
  - replace (e + Z.pos p - e) with (Z.pos p) by lia.
    apply iter_shr_1_m, Hm.
  - rewrite Z.sub_diag, Z.pow_0_r, Z.div_1_r. reflexivity.
Qed.

Lemma Zdigits2_le (m k : Z) :
  0 <= k -> 0 <= m < 2 ^ k -> Zdigits2 m <= k.
Proof.
  intros Hk [Hm Hlt].
  destruct m as [|p|p]; cbn [Zdigits2]; [lia| |lia].
  destruct (digits2_pos_bounds p) as [Hlo _].
  assert (H : 2 ^ (Z.pos (digits2_pos p) - 1) < 2 ^ k) by lia.
  apply Z.pow_lt_mono_r_iff in H; lia.
Qed.

(** One rounding step of [binary_round_aux] keeps a value between two
    bounds that are multiples of [2 ^ g], when the upper one fits in 53
    bits: such bounds are floats themselves, and rounding to nearest cannot
    cross them. *)
Lemma round_step_between (lo hi g m e : Z) :
  0 <= lo -> hi < 2 ^ 53 -> -1074 <= g -> 0 <= m -> e <= g ->
  lo * 2 ^ (g - e) <= m <= hi * 2 ^ (g - e) ->
  snd (shr_fexp prec emax m e loc_Exact) <= g /\
  lo * 2 ^ (g - snd (shr_fexp prec emax m e loc_Exact)) <=
    shr_m (fst (shr_fexp prec emax m e loc_Exact)) /\
  shr_m (fst (shr_fexp prec emax m e loc_Exact)) <=
    round_nearest_even
      (shr_m (fst (shr_fexp prec emax m e loc_Exact)))
      (loc_of_shr_record (fst (shr_fexp prec emax m e loc_Exact))) /\
  round_nearest_even
    (shr_m (fst (shr_fexp prec emax m e loc_Exact)))
    (loc_of_shr_record (fst (shr_fexp prec emax m e loc_Exact)))
  <= hi * 2 ^ (g - snd (shr_fexp prec emax m e loc_Exact)).
Proof.
  intros Hlo Hhi Hg Hm He [Hlow Hupp].
  assert (Hpe : 0 < 2 ^ (g - e)) by (apply Z.pow_pos_nonneg; lia).
  assert (Hdig : Zdigits2 m + e <= 53 + g).
  { assert (Hd : Zdigits2 m <= 53 + (g - e)); [|lia].
    apply Zdigits2_le; [lia|]. split; [exact Hm|].
    rewrite Z.pow_add_r by lia.
    apply Z.le_lt_trans with (hi * 2 ^ (g - e)); [exact Hupp|].
    apply Z.mul_lt_mono_pos_r; assumption. }
  unfold shr_fexp. cbn [shr_record_of_loc].
  assert (Hfexp : fexp prec emax (Zdigits2 m + e) <= g)
    by (unfold fexp, SpecFloat.emin, prec, emax; lia).
  remember (fexp prec emax (Zdigits2 m + e) - e) as n eqn:En.
  assert (Hb0 : below m 0 (Build_shr_record m false false)).
  { unfold below; cbn [shr_m shr_r shr_s orb].
    rewrite Z.pow_0_r. repeat split; try lia; discriminate. }
  pose proof (shr_below m _ e n Hb0) as Hb.
  pose proof (shr_m_floor (Build_shr_record m false false) e n Hm) as Hfl.
  cbn [shr_m] in Hfl.
  assert (He' : e <= snd (shr (Build_shr_record m false false) e n) <= g).
  { destruct n as [|p|p]; cbn [shr snd]; lia. }
  destruct (shr (Build_shr_record m false false) e n) as [[q r s] e'].
  cbn [fst snd shr_m shr_r shr_s] in *.
  destruct Hb as (Hq & Hqle & Hqlt). cbn [shr_m shr_r shr_s] in *.
  set (k := e' - e) in *.
  assert (Hk : 0 <= k) by (unfold k; lia).
  assert (Hpk : 0 < 2 ^ k) by (apply Z.pow_pos_nonneg; lia).
  assert (Hpe' : 0 < 2 ^ (g - e')) by (apply Z.pow_pos_nonneg; lia).
  assert (Hsplit : 2 ^ (g - e) = 2 ^ (g - e') * 2 ^ k).
  { rewrite <- Z.pow_add_r by (unfold k; lia). f_equal. unfold k. lia. }
  rewrite Hsplit in Hlow, Hupp. rewrite Z.mul_assoc in Hlow, Hupp.
  set (L := lo * 2 ^ (g - e')) in *.
  set (U := hi * 2 ^ (g - e')) in *.
  assert (HqU : q <= U).
  { apply Z.mul_le_mono_pos_r with (2 ^ k); [exact Hpk|]. lia. }
  assert (HqU1 : r || s = true -> q + 1 <= U).
  { intros H. specialize (Hqlt H).
    assert (q < U); [|lia].
    apply Z.mul_lt_mono_pos_r with (2 ^ k); [exact Hpk|]. lia. }
  assert (HLq : L <= q).
  { rewrite Hfl. apply Z.div_le_lower_bound; [exact Hpk|]. lia. }
  split; [lia|]. split; [exact HLq|].
  destruct r, s; cbn [loc_of_shr_record round_nearest_even orb] in *;
    try destruct (Z.even q); split; try lia; apply HqU1; reflexivity.
Qed.

Lemma binary_round_aux_between (lo hi g : Z) (mx : positive) (ex : Z) :
  0 <= lo -> hi < 2 ^ 53 -> -1074 <= g <= 0 -> ex <= g ->
  lo * 2 ^ (g - ex) <= Z.pos mx <= hi * 2 ^ (g - ex) ->
  (binary_round_aux prec emax false (Z.pos mx) ex loc_Exact = S754_zero false /\
   lo = 0) \/
  exists m e,
    binary_round_aux prec emax false (Z.pos mx) ex loc_Exact =
      S754_finite false m e /\
    e <= g /\ lo * 2 ^ (g - e) <= Z.pos m <= hi * 2 ^ (g - e).
Proof.
  intros Hlo Hhi Hg Hex Hbt. unfold binary_round_aux.
  destruct (round_step_between lo hi g (Z.pos mx) ex Hlo Hhi ltac:(lia)
              ltac:(lia) Hex Hbt) as (He1 & Hl1 & Hr1 & Hu1).
  destruct (shr_fexp prec emax (Z.pos mx) ex loc_Exact) as [mrs1 e1].
  cbn [fst snd] in *.
  set (m1 := round_nearest_even (shr_m mrs1) (loc_of_shr_record mrs1)) in *.
  assert (Hp1 : 0 < 2 ^ (g - e1)) by (apply Z.pow_pos_nonneg; lia).
  assert (Hm1 : 0 <= m1).
  { apply Z.le_trans with (lo * 2 ^ (g - e1)); [|lia].
    apply Z.mul_nonneg_nonneg; lia. }
  destruct (round_step_between lo hi g m1 e1 Hlo Hhi ltac:(lia) Hm1 He1
              ltac:(lia)) as (He2 & Hl2 & Hr2 & Hu2).
  destruct (shr_fexp prec emax m1 e1 loc_Exact) as [mrs2 e2].
  cbn [fst snd] in *.
  assert (Hp2 : 0 < 2 ^ (g - e2)) by (apply Z.pow_pos_nonneg; lia).
  destruct (shr_m mrs2) as [|m2|m2] eqn:Em2.
  - left. split; [reflexivity|].
    destruct (Z.eq_dec lo 0) as [|Hne]; [assumption|].
    assert (0 < lo * 2 ^ (g - e2)) by (apply Z.mul_pos_pos; lia). lia.
  - right. exists m2, e2.
    destruct (Z.leb_spec e2 (emax - prec)) as [_|Hbad];
      [|unfold emax, prec in Hbad; lia].
    split; [reflexivity|]. split; [exact He2|]. lia.
  - assert (0 <= lo * 2 ^ (g - e2)) by (apply Z.mul_nonneg_nonneg; lia). lia.
Qed.

(** The operands of the product. *)

Lemma float_of_int_canonical (c : Z) :
  0 < c < 256 ->
  exists m e,
    float_of_int c = S754_finite false m e /\
    e <= -45 /\ Z.pos m = c * 2 ^ (- e).
Proof.
  intros Hc.
  assert (Hall : forallb canonical_float_of_int (map Z.of_nat (seq 1 255))
                 = true) by (vm_compute; reflexivity).
  rewrite forallb_forall in Hall.
  assert (Hin : In c (map Z.of_nat (seq 1 255))).
  { rewrite <- (Z2Nat.id c) by lia. apply in_map, in_seq. lia. }
  specialize (Hall c Hin). unfold canonical_float_of_int in Hall.
  destruct (float_of_int c) as [| | |[|] m e]; try discriminate.
  apply andb_true_iff in Hall as [He Hm].
  exists m, e. split; [reflexivity|]. split; lia.
Qed.

Lemma le_1_0_exponent (m : positive) (e : Z) :
  float_le (S754_finite false m e) float_1_0 = true -> e <= -52.
Proof.
  unfold float_le, SFleb, float_1_0. cbn [SFcompare].
  destruct (Z.compare_spec e (-52)) as [He|He|He]; [lia|lia|discriminate].
Qed.

Lemma float_trunc_finite (m : positive) (e : Z) :
  e <= 0 -> float_trunc (S754_finite false m e) = Z.pos m / 2 ^ (- e).
Proof.
  intros He. cbn [float_trunc cond_Zopp]. apply Z.shiftl_div_pow2, He.
Qed.

(** The round bit of a right shift. *)

Lemma shr_1_half (M k : Z) (mrs : shr_record) :
  0 <= k -> half_bit M k mrs -> half_bit M (k + 1) (shr_1 mrs).
Proof.
  intros Hk (Hm & Hlo & Hhi).
  destruct mrs as [m r s]. cbn [shr_m shr_r shr_s] in *.
  unfold half_bit. rewrite Z.pow_add_r, Z.pow_1_r by lia.
  assert (Hpow : 0 < 2 ^ k) by (apply Z.pow_pos_nonneg; lia).
  set (P := 2 ^ k) in *.
  assert (Hstep : 0 <= shr_m (shr_1 (Build_shr_record m r s)) /\
                  2 * shr_m (shr_1 (Build_shr_record m r s)) +
                  Z.b2z (shr_r (shr_1 (Build_shr_record m r s))) = m).
  { destruct m as [|[p|p|]|p]; cbn [shr_1 shr_m shr_r Z.b2z]; lia. }
  destruct Hstep as [H0 Hm'].
  set (m' := shr_m (shr_1 (Build_shr_record m r s))) in *.
  set (r' := shr_r (shr_1 (Build_shr_record m r s))) in *.
  split; [exact H0|]. rewrite Hm'.
  assert (Hb : 0 <= Z.b2z r <= 1) by (destruct r; cbn; lia).
  split.
  - apply Z.le_trans with ((2 * m + Z.b2z r) * P); [|exact Hlo].
    replace (m * (P * 2)) with (2 * m * P) by ring.
    apply Z.mul_le_mono_nonneg_r; lia.
  - apply Z.lt_le_trans with ((2 * m + Z.b2z r + 1) * P); [exact Hhi|].
    replace ((m + 1) * (P * 2)) with ((2 * m + 2) * P) by ring.
    apply Z.mul_le_mono_nonneg_r; lia.
Qed.

Lemma iter_shr_1_half (p : positive) (M k : Z) (mrs : shr_record) :
  0 <= k -> half_bit M k mrs ->
  half_bit M (k + Z.pos p) (SpecFloat.iter_pos shr_1 p mrs).
Proof.
  revert k mrs. induction p as [p IH|p IH|]; intros k mrs Hk Hb;
    cbn [SpecFloat.iter_pos].
  - replace (k + Z.pos p~1) with (k + 1 + Z.pos p + Z.pos p) by lia.
    apply IH; [lia|]. apply IH; [lia|]. apply shr_1_half; assumption.
  - replace (k + Z.pos p~0) with (k + Z.pos p + Z.pos p) by lia.
    apply IH; [lia|]. apply IH; assumption.
  - apply shr_1_half; assumption.
Qed.

Lemma Zdigits2_eq (m d : Z) :
  2 ^ (d - 1) <= m < 2 ^ d -> 0 < d -> Zdigits2 m = d.
Proof.
  intros [Hlo Hhi] Hd.
  assert (Hp : 0 < 2 ^ (d - 1)) by (apply Z.pow_pos_nonneg; lia).
  destruct m as [|p|p]; [lia| |lia]. cbn [Zdigits2].
  destruct (digits2_pos_bounds p) as [Hlo' Hhi'].
  assert (H1 : 2 ^ (Z.pos (digits2_pos p) - 1) < 2 ^ d) by lia.
  assert (H2 : 2 ^ (d - 1) < 2 ^ Z.pos (digits2_pos p)) by lia.
  apply Z.pow_lt_mono_r_iff in H1; [|lia|lia].
  apply Z.pow_lt_mono_r_iff in H2; lia.
Qed.

Lemma round_tail_exact (v g m1 e1 : Z) :
  0 < v < 2 ^ 53 -> -1074 <= g <= 0 -> e1 <= g -> m1 = v * 2 ^ (g - e1) ->
  exists m e,
    (let '(mrs'', e'') := shr_fexp prec emax m1 e1 loc_Exact in
     match shr_m mrs'' with
     | 0 => S754_zero false
     | Z.pos m =>
         if e'' <=? emax - prec then S754_finite false m e''
         else S754_infinity false
     | Z.neg _ => S754_nan
     end) = S754_finite false m e /\
    e <= g /\ Z.pos m = v * 2 ^ (g - e).
Proof.
  intros Hv Hg He1 Hm1.
  assert (Hp1 : 0 < 2 ^ (g - e1)) by (apply Z.pow_pos_nonneg; lia).
  assert (Hm0 : 0 <= m1) by (rewrite Hm1; apply Z.mul_nonneg_nonneg; lia).
  destruct (round_step_between v v g m1 e1) as (He2 & Hl2 & Hr2 & Hu2);
    try lia.
  destruct (shr_fexp prec emax m1 e1 loc_Exact) as [mrs2 e2].
  cbn [fst snd] in *.
  assert (Hp2 : 0 < 2 ^ (g - e2)) by (apply Z.pow_pos_nonneg; lia).
  assert (Hpos : 0 < v * 2 ^ (g - e2)) by (apply Z.mul_pos_pos; lia).
  destruct (shr_m mrs2) as [|m2|m2] eqn:Em2; [lia| |lia].
  exists m2, e2.
  destruct (Z.leb_spec e2 (emax - prec)) as [_|Hbad];
    [|unfold emax, prec in Hbad; lia].
  split; [reflexivity|]. split; [exact He2|]. lia.
Qed.

Lemma binary_round_aux_in_gap (n g : Z) (mx : positive) (ex : Z) :
  2 ^ 52 < n <= 2 ^ 53 -> Z.even n = true -> -1074 <= g <= -1 -> ex < g ->
  (n - 1) * 2 ^ (g - ex) < Z.pos mx < n * 2 ^ (g - ex) ->
  exists m e,
    binary_round_aux prec emax false (Z.pos mx) ex loc_Exact =
      S754_finite false m e /\
    if (2 * n - 1) * 2 ^ (g - ex) <=? 2 * Z.pos mx
    then e <= g + 1 /\ Z.pos m = n / 2 * 2 ^ (g + 1 - e)
    else e <= g /\ Z.pos m = (n - 1) * 2 ^ (g - e).
Proof.
  intros Hn Heven Hg Hex [Hlo Hhi].
  assert (Hk : exists p, g - ex = Z.pos p)
    by (exists (Z.to_pos (g - ex)); lia).
  destruct Hk as [p Hp].
  assert (HK : 0 < 2 ^ (g - ex)) by (apply Z.pow_pos_nonneg; lia).
  set (K := 2 ^ (g - ex)) in *.
  set (M := Z.pos mx) in *.
  assert (Hdig : Zdigits2 M = 53 + (g - ex)).
  { apply Zdigits2_eq; [|lia].
    replace (53 + (g - ex) - 1) with (52 + (g - ex)) by lia.
    rewrite !Z.pow_add_r by lia. fold K. split.
    - apply Z.le_trans with ((n - 1) * K); [|lia].
      apply Z.mul_le_mono_nonneg_r; lia.
    - apply Z.lt_le_trans with (n * K); [exact Hhi|].
      apply Z.mul_le_mono_nonneg_r; lia. }
  assert (Hshift : fexp prec emax (Zdigits2 M + ex) - ex = Z.pos p).
  { rewrite Hdig. unfold fexp, SpecFloat.emin, prec, emax. lia. }
  unfold binary_round_aux.
  unfold shr_fexp at 1. rewrite Hshift. cbn [shr_record_of_loc shr].
  pose proof (iter_shr_1_m p (Build_shr_record M false false)
                ltac:(cbn; lia)) as Hm.
  assert (Hh0 : half_bit M 0 (Build_shr_record M false false)).
  { unfold half_bit. cbn [shr_m shr_r Z.b2z]. rewrite Z.pow_0_r. lia. }
  pose proof (iter_shr_1_half p M 0 _ ltac:(lia) Hh0) as Hh.
  rewrite Z.add_0_l, <- Hp in Hh. rewrite <- Hp in Hm. fold K in Hh, Hm.
  cbn [shr_m] in Hm.
  replace (ex + Z.pos p) with g by lia.
  destruct (SpecFloat.iter_pos shr_1 p (Build_shr_record M false false))
    as [m r s].
  destruct Hh as (_ & Hh1 & Hh2). cbn [shr_m shr_r shr_s] in *.
  assert (Hmn : m = n - 1).
  { rewrite Hm.
    assert (n - 1 <= M / K) by (apply Z.div_le_lower_bound; lia).
    assert (M / K < n) by (apply Z.div_lt_upper_bound; lia).
    lia. }
  clear Hm. subst m.
  assert (Hodd : Z.even (n - 1) = false).
  { rewrite Z.even_sub, Heven. reflexivity. }
  assert (Hround : round_nearest_even (n - 1)
                     (loc_of_shr_record (Build_shr_record (n - 1) r s)) =
                   n - 1 + Z.b2z r).
  { destruct r, s; cbn [loc_of_shr_record round_nearest_even Z.b2z];
      try lia.
    change (IntDef.Z.even (n - 1)) with (Z.even (n - 1)).
    rewrite Hodd. reflexivity. }
  rewrite Hround.
  assert (Hn2 : n = 2 * (n / 2)).
  { rewrite <- Z.div2_div. apply Zeven_div2, Zeven_bool_iff, Heven. }
  assert (H53 : 2 ^ 53 = 2 * 2 ^ 52) by reflexivity.
  assert (H52 : 0 < 2 ^ 52) by reflexivity.
  destruct r; cbn [Z.b2z] in *.
  - destruct (Z.leb_spec ((2 * n - 1) * K) (2 * M)) as [_|Hbad]; [|lia].
    replace (n - 1 + 1) with n by lia.
    apply (round_tail_exact (n / 2) (g + 1) n g); [lia|lia|lia|].
    replace (g + 1 - g) with 1 by lia. rewrite Z.pow_1_r. lia.
  - destruct (Z.leb_spec ((2 * n - 1) * K) (2 * M)) as [Hbad|_]; [lia|].
    rewrite Z.add_0_r.
    apply (round_tail_exact (n - 1) g (n - 1) g); [lia|lia|lia|].
    rewrite Z.sub_diag, Z.pow_0_r. lia.
Qed.

Lemma float_trunc_scaled (v g e : Z) (m : positive) :
  e <= g <= 0 -> Z.pos m = v * 2 ^ (g - e) ->
  float_trunc (S754_finite false m e) = v / 2 ^ (- g).
Proof.
  intros Hg Hm. rewrite float_trunc_finite by lia. rewrite Hm.
  replace (- e) with (- g + (g - e)) by lia.
  rewrite Z.pow_add_r by lia.
  apply Z.div_mul_cancel_r; apply Z.pow_nonzero; lia.
Qed.

Lemma log2_up_byte (N : Z) :
  1 <= N <= 256 ->
  0 <= Z.log2_up N <= 8 /\ 2 ^ Z.log2_up N < 2 * N /\ N <= 2 ^ Z.log2_up N.
Proof.
  intros HN.
  destruct (Z.eq_dec N 1) as [->|Hne]; [cbn; lia|].
  destruct (Z.log2_up_spec N ltac:(lia)) as [Hlo Hhi].
  pose proof (Z.log2_up_pos N ltac:(lia)) as Hpos.
  set (L := Z.log2_up N) in *.
  assert (Hsplit : 2 ^ L = 2 * 2 ^ Z.pred L).
  { replace L with (1 + Z.pred L) at 1 by lia.
    rewrite Z.pow_add_r by lia. reflexivity. }
  split; [|lia]. split; [lia|].
  assert (H8 : 2 ^ Z.pred L < 2 ^ 8) by (change (2 ^ 8) with 256; lia).
  apply Z.pow_lt_mono_r_iff in H8; lia.
Qed.

(** Truncation of a rounded value below 256, from its mantissa and exponent. *)
Lemma float_trunc_round (mx : positive) (ex : Z) :
  ex <= -97 -> Z.pos mx <= 255 * 2 ^ (- ex) ->
  float_trunc (binary_round_aux prec emax false (Z.pos mx) ex loc_Exact) =
  if 2 ^ (54 - Z.log2_up (Z.pos mx / 2 ^ (- ex) + 1)) *
     ((Z.pos mx / 2 ^ (- ex) + 1) * 2 ^ (- ex) - Z.pos mx) <=? 2 ^ (- ex)
  then Z.pos mx / 2 ^ (- ex) + 1
  else Z.pos mx / 2 ^ (- ex).
Proof.
  intros Hex Hle.
  set (M := Z.pos mx) in *. set (D := 2 ^ (- ex)) in *.
  assert (HD : 0 < D) by (apply Z.pow_pos_nonneg; lia).
  assert (HM : 0 < M) by (unfold M; lia).
  set (F := M / D).
  assert (HF0 : 0 <= F) by (apply Z.div_pos; lia).
  assert (HF255 : F <= 255) by (apply Z.div_le_upper_bound; lia).
  assert (HFlo : F * D <= M) by (rewrite Z.mul_comm; apply Z.mul_div_le; lia).
  assert (HFhi : M < (F + 1) * D).
  { rewrite Z.mul_comm. apply Z.mul_succ_div_gt. lia. }
  set (N := F + 1) in *.
  destruct (log2_up_byte N) as (HL & HL1 & HL2); [lia|].
  set (L := Z.log2_up N) in *.
  set (g := L - 53).
  set (T := 2 ^ (53 - L)).
  set (K := 2 ^ (g - ex)).
  assert (HT : 0 < T) by (apply Z.pow_pos_nonneg; lia).
  assert (HK : 0 < K) by (apply Z.pow_pos_nonneg; unfold g; lia).
  assert (HDKT : D = K * T).
  { unfold D, K, T, g. rewrite <- Z.pow_add_r by lia. f_equal. lia. }
  assert (H2T : 2 ^ (54 - L) = 2 * T).
  { unfold T. replace (54 - L) with (1 + (53 - L)) by lia.
    rewrite Z.pow_add_r by lia. reflexivity. }
  assert (HLT : 2 ^ L * T = 2 ^ 53).
  { unfold T. rewrite <- Z.pow_add_r by lia. f_equal. lia. }
  assert (H53 : 2 ^ 53 = 2 * 2 ^ 52) by reflexivity.
  set (n := N * T).
  assert (Hn : 2 ^ 52 < n <= 2 ^ 53).
  { unfold n. split.
    - assert (2 ^ L * T < 2 * N * T)
        by (apply Z.mul_lt_mono_pos_r; assumption).
      lia.
    - rewrite <- HLT. apply Z.mul_le_mono_nonneg_r; lia. }
  assert (HND : N * D = n * K) by (unfold n; rewrite HDKT; ring).
  rewrite H2T.
  assert (Hcond : (2 * T * (N * D - M) <=? D) =
                  ((2 * n - 1) * K <=? 2 * M)).
  { rewrite HND, HDKT.
    destruct (Z.leb_spec (2 * T * (n * K - M)) (K * T)) as [H1|H1];
      destruct (Z.leb_spec ((2 * n - 1) * K) (2 * M)) as [H2|H2];
      try reflexivity; exfalso.
    - assert (T * (2 * M) < T * ((2 * n - 1) * K))
        by (apply Z.mul_lt_mono_pos_l; assumption).
      lia.
    - assert (T * ((2 * n - 1) * K) <= T * (2 * M))
        by (apply Z.mul_le_mono_nonneg_l; lia).
      lia. }
  rewrite Hcond.
  destruct (Z_le_gt_dec M ((n - 1) * K)) as [Hbelow|Habove]; subst M.
  - (* at most the float below [N] *)
    destruct (Z.leb_spec ((2 * n - 1) * K) (2 * Z.pos mx)) as [Hbad|_];
      [lia|].
    destruct (binary_round_aux_between F N 0 mx ex)
      as [[Hz HF] | (m & e & Hbra & He & Hlo & Hhi)]; try lia.
    { rewrite Z.sub_0_l. fold D. lia. }
    { rewrite Hz. cbn [float_trunc]. lia. }
    destruct (binary_round_aux_between 0 (n - 1) g mx ex)
      as [[Hz _] | (m' & e' & Hbra' & He' & _ & Hhi')];
      try (unfold g; lia).
    { fold K. lia. }
    { rewrite Hz in Hbra. discriminate Hbra. }
    rewrite Hbra in Hbra'. injection Hbra' as <- <-.
    rewrite Hbra, float_trunc_finite by lia.
    rewrite Z.sub_0_l in Hlo, Hhi.
    set (V := 2 ^ (- e)) in *.
    assert (HV : 0 < V) by (apply Z.pow_pos_nonneg; lia).
    set (q := Z.pos m / V).
    assert (Hq1 : F <= q) by (apply Z.div_le_lower_bound; lia).
    assert (HqV : q * V <= Z.pos m).
    { unfold q. rewrite Z.mul_comm. apply Z.mul_div_le. lia. }
    assert (HVT : V = T * 2 ^ (g - e)).
    { unfold V, T, g. rewrite <- Z.pow_add_r by lia. f_equal. lia. }
    assert (HP : 0 < 2 ^ (g - e)) by (apply Z.pow_pos_nonneg; lia).
    assert (Hq2 : q * T <= n - 1).
    { apply Z.mul_le_mono_pos_r with (2 ^ (g - e)); [exact HP|].
      rewrite <- Z.mul_assoc, <- HVT. lia. }
    assert (q < N).
    { apply Z.mul_lt_mono_pos_r with T; [exact HT|]. fold n. lia. }
    lia.
  - (* in the gap below [N] *)
    assert (HMn : Z.pos mx < n * K) by lia.
    destruct (binary_round_aux_in_gap n g mx ex)
      as (m & e & Hbra & Hcase); try (unfold g; lia).
    { unfold n, T. replace (53 - L) with (1 + (52 - L)) by lia.
      rewrite Z.pow_add_r, Z.pow_1_r by lia.
      rewrite Z.mul_assoc, Z.even_mul, Z.even_mul. cbn.
      rewrite orb_true_r. reflexivity. }
    { fold K. lia. }
    rewrite Hbra. fold K in Hcase.
    destruct ((2 * n - 1) * K <=? 2 * Z.pos mx).
    + destruct Hcase as [He Hm].
      rewrite (float_trunc_scaled (n / 2) (g + 1) e m);
        [|unfold g; lia|exact Hm].
      unfold n, T, g.
      replace (53 - L) with (1 + (52 - L)) by lia.
      rewrite Z.pow_add_r, Z.pow_1_r by lia.
      replace (N * (2 * 2 ^ (52 - L))) with (N * 2 ^ (52 - L) * 2) by ring.
      rewrite Z.div_mul by lia.
      replace (- (L - 53 + 1)) with (52 - L) by lia.
      apply Z.div_mul, Z.pow_nonzero; lia.
    + destruct Hcase as [He Hm].
      rewrite (float_trunc_scaled (n - 1) g e m);
        [|unfold g; lia|exact Hm].
      unfold g. replace (- (L - 53)) with (53 - L) by lia. fold T.
      unfold n. symmetry. apply Z.div_unique with (T - 1); lia.
Qed.

(** The float product of an 8-bit channel and a brightness in the unit
    interval, truncated, is what integer arithmetic says. *)
Lemma scaled_is_exact_scaled (c : Z) (brightness : float) :
  is_uint8 c -> in_unit_interval brightness = true ->
  scaled brightness c = exact_scaled brightness c.
Proof.
  unfold is_uint8, in_unit_interval. intros Hc Hb.
  apply andb_true_iff in Hb as [Hb Hle1].
  apply andb_true_iff in Hb as [Hvalid Hle0].
  unfold exact_scaled, rounds_up, product_floor.
  destruct brightness as [sb|sb| |sb mb eb].
  - cbn [float_num float_den]. rewrite Z.mul_0_r.
    change (0 / 1) with 0. cbn [Z.add]. rewrite Z.sub_0_r.
    change (2 ^ (54 - Z.log2_up 1) * (1 * 1) <=? 1) with false.
    unfold scaled.
    destruct (Z.eq_dec c 0) as [->|Hne]; [reflexivity|].
    destruct (float_of_int_canonical c) as (mc & ec & -> & _); [lia|].
    reflexivity.
  - destruct sb; [discriminate Hle0 | discriminate Hle1].
  - discriminate Hle0.
  - destruct sb; [discriminate Hle0|].
    destruct (le_1_0_mantissa mb eb Hvalid Hle1) as [_ Hmb].
    pose proof (le_1_0_exponent mb eb Hle1) as Heb.
    cbn [float_num float_den].
    rewrite (Z.max_r eb 0), (Z.max_l (- eb) 0), Z.pow_0_r, Z.mul_1_r by lia.
    set (B := 2 ^ (- eb)) in *.
    assert (HB : 0 < B) by (apply Z.pow_pos_nonneg; lia).
    destruct (Z.eq_dec c 0) as [->|Hne].
    { rewrite Z.mul_0_l, Z.div_0_l, Z.sub_0_r by lia. cbn [Z.add].
      change (Z.log2_up 1) with 0. rewrite Z.sub_0_r, Z.mul_1_l.
      destruct (Z.leb_spec (2 ^ 54 * B) B) as [Hbad|_]; [|reflexivity].
      assert (1 * B < 2 ^ 54 * B)
        by (apply Z.mul_lt_mono_pos_r; [exact HB|reflexivity]).
      lia. }
    destruct (float_of_int_canonical c) as (mc & ec & Hfc & Hec & Hmc); [lia|].
    unfold scaled, float_mul. rewrite Hfc. cbn [SFmul xorb].
    set (U := 2 ^ (- ec)) in *.
    set (A := c * Z.pos mb).
    assert (HU : 0 < U) by (apply Z.pow_pos_nonneg; lia).
    assert (HM : Z.pos (mc * mb) = A * U).
    { rewrite Pos2Z.inj_mul, Hmc. unfold A. ring. }
    assert (HD : 2 ^ (- (ec + eb)) = B * U).
    { unfold U, B. rewrite <- Z.pow_add_r by lia. f_equal. lia. }
    assert (HA : 0 <= A) by (unfold A; lia).
    assert (HAc : A <= 255 * B).
    { apply Z.le_trans with (c * B).
      - unfold A. apply Z.mul_le_mono_nonneg_l; lia.
      - apply Z.mul_le_mono_nonneg_r; lia. }
    rewrite float_trunc_round; [|lia|].
    2:{ rewrite HM, HD.
        replace (255 * (B * U)) with (255 * B * U) by ring.
        apply Z.mul_le_mono_nonneg_r; lia. }
    rewrite HM, HD.
    rewrite Z.div_mul_cancel_r by lia.
    set (N := A / B + 1).
    replace (N * (B * U) - A * U) with ((N * B - A) * U) by ring.
    rewrite Z.mul_assoc.
    assert (Hcond : (2 ^ (54 - Z.log2_up N) * (N * B - A) * U <=? B * U) =
                    (2 ^ (54 - Z.log2_up N) * (N * B - A) <=? B)).
    { destruct (Z.leb_spec (2 ^ (54 - Z.log2_up N) * (N * B - A) * U) (B * U))
        as [H1|H1];
        destruct (Z.leb_spec (2 ^ (54 - Z.log2_up N) * (N * B - A)) B)
          as [H2|H2]; try reflexivity; exfalso.
      - apply Z.mul_lt_mono_pos_r with (p := U) in H2; [lia|exact HU].
      - apply Z.mul_le_mono_pos_r with (p := U) in H2; [lia|exact HU]. }
    rewrite Hcond. reflexivity.
Qed.



(** The float product can reach the next integer: [10 * 0.7] is [7.0],
    although the exact product of 10 and the float [0.7] lies below 7. *)
Lemma scaled_10_at_0_7 :
  scaled float_0_7 10 = 7 /\ exact_scaled float_0_7 10 = 7 /\
  product_floor 10 float_0_7 = 6.
Proof. repeat split; reflexivity. Qed.

End ScalingFacts.

(** ** The strip *)

Module StripFacts.
Import Strip StripSpec FloatSpec FloatFacts.

Section Generic.
Context {D : Type} `{WS2812StripDriver.t D}.

Lemma py_index_nonneg (len : nat) (i : Z) :
  0 <= i < Z.of_nat len -> py_index len i = Return (Z.to_nat i).
Proof.
  intros Hi. unfold py_index.
  destruct (Z.leb_spec 0 i); [|lia].
  destruct (Z.ltb_spec i (Z.of_nat len)); [reflexivity|lia].
Qed.

Lemma py_index_negative (len : nat) (i : Z) :
  - Z.of_nat len <= i < 0 ->
  py_index len i = Return (Z.to_nat (Z.of_nat len + i)).
Proof.
  intros Hi. unfold py_index.
  destruct (Z.leb_spec 0 i); [lia|]. cbn [andb].
  destruct (Z.leb_spec (- Z.of_nat len) i); [|lia].
  destruct (Z.ltb_spec i 0); [reflexivity|lia].
Qed.

Lemma py_index_outside (len : nat) (i : Z) :
  i < - Z.of_nat len \/ Z.of_nat len <= i -> py_index len i = Raise IndexError.
Proof.
  intros Hi. unfold py_index.
  destruct (Z.leb_spec 0 i), (Z.ltb_spec i (Z.of_nat len)),
    (Z.leb_spec (- Z.of_nat len) i), (Z.ltb_spec i 0);
    cbn [andb]; try reflexivity; lia.
Qed.

(** C4, amended. On a strip whose buffer holds [_led_count] pixels:
    for [0 <= i < _led_count], [set_pixel_color i c] returns normally, puts
    [c] at position [i] and changes nothing else (brightness, LED count and
    backend are kept, so nothing is transmitted); for [i >= _led_count], and
    for [i < - _led_count], it raises [IndexError] and changes nothing. *)
Theorem set_pixel_color_in_and_out_of_range
  (self : t D) (i : Z) (color : Color.t) :
  strip_wf self ->
  (0 <= i < _led_count self ->
   set_pixel_color i color self =
   (Return tt, with_pixels self (<[Z.to_nat i := color]> (_pixels self)))) /\
  (_led_count self <= i \/ i < - _led_count self ->
   set_pixel_color i color self = (Raise IndexError, self)).
Proof.
  unfold strip_wf. intros Hwf. unfold set_pixel_color, list_setitem. split; intros Hi.
  - rewrite py_index_nonneg by lia. reflexivity.
  - rewrite py_index_outside by lia. reflexivity.
Qed.

(** C9. On a strip whose buffer holds [_led_count] pixels, for a negative
    index [- _led_count <= i <= -1], [set_pixel_color i c] raises nothing and
    puts [c] at position [_led_count + i], changing nothing else. *)
Theorem set_pixel_color_negative_index
  (self : t D) (i : Z) (color : Color.t) :
  strip_wf self ->
  - _led_count self <= i <= -1 ->
  set_pixel_color i color self =
  (Return tt,
   with_pixels self
     (<[Z.to_nat (_led_count self + i) := color]> (_pixels self))).
Proof.
  unfold strip_wf. intros Hwf Hi. unfold set_pixel_color, list_setitem.
  rewrite py_index_negative by lia. rewrite Hwf. reflexivity.
Qed.

Lemma length_list_mul {A} (x : A) (n : Z) :
  0 <= n -> Z.of_nat (length (list_mul x n)) = n.
Proof. intros Hn. unfold list_mul. rewrite length_replicate. lia. Qed.

(** A backend call changes the backend only. *)
Lemma call_backend_frame {A} (c : M D A) (self : t D) :
  _led_count (snd (call_backend c self)) = _led_count self /\
  _brightness (snd (call_backend c self)) = _brightness self /\
  _pixels (snd (call_backend c self)) = _pixels self /\
  _backend (snd (call_backend c self)) = snd (c (_backend self)).
Proof.
  unfold call_backend. destruct (c (_backend self)). cbn. auto.
Qed.

Lemma run_call_led_count (c : strip_call) (self : t D) :
  _led_count (snd (run_strip_call c self)) = _led_count self.
Proof.
  destruct c; cbn [run_strip_call]; try reflexivity.
  - unfold set_pixel_color. destruct (list_setitem _ _ _); reflexivity.
  - apply call_backend_frame.
  - unfold clear.
    match goal with |- context [call_backend _ ?s] =>
      destruct (call_backend_frame WS2812StripDriver.clear s) as (-> & _)
    end.
    reflexivity.
Qed.

Lemma strip_run_call_wf (c : strip_call) (self : t D) :
  0 <= _led_count self -> strip_wf self -> strip_wf (snd (run_strip_call c self)).
Proof.
  unfold strip_wf. intros Hn Hwf. destruct c; cbn [run_strip_call].
  - unfold set_pixel_color, list_setitem.
    destruct (py_index _ _); cbn [obind snd _pixels _led_count];
      [rewrite length_insert|]; exact Hwf.
  - cbn. apply length_list_mul, Hn.
  - exact Hwf.
  - unfold show.
    destruct (call_backend_frame
                (WS2812StripDriver.write
                   (show_buffer (_pixels self) (_brightness self))) self)
      as (-> & _ & -> & _).
    exact Hwf.
  - unfold clear.
    match goal with |- context [call_backend _ ?s] =>
      destruct (call_backend_frame WS2812StripDriver.clear s)
        as (-> & _ & -> & _)
    end.
    cbn. apply length_list_mul, Hn.
Qed.

Lemma strip_run_calls_wf (calls : list strip_call) (self : t D) :
  0 <= _led_count self -> strip_wf self ->
  _led_count (run_strip_calls calls self) = _led_count self /\
  strip_wf (run_strip_calls calls self).
Proof.
  revert self. induction calls as [|c calls IH]; intros self Hn Hwf; [auto|].
  change (run_strip_calls (c :: calls) self)
    with (run_strip_calls calls (snd (run_strip_call c self))).
  destruct (IH (snd (run_strip_call c self))) as [Hc Hwf'].
  - rewrite run_call_led_count. exact Hn.
  - apply strip_run_call_wf; assumption.
  - rewrite Hc, run_call_led_count. auto.
Qed.

Lemma strip_init_wf (backend : D) :
  0 <= WS2812StripDriver.get_led_count backend -> strip_wf (__init__ backend).
Proof. intros Hn. unfold strip_wf. cbn. apply length_list_mul, Hn. Qed.

(** C7. A strip constructed on a backend reporting [n >= 0] LEDs holds, after
    any sequence of [set_pixel_color], [set_all_pixels], [set_brightness],
    [show] and [clear] calls (failing ones included), a buffer of exactly [n]
    colors, and still reports [n] pixels. *)
Theorem pixel_buffer_length_invariant (backend : D) (calls : list strip_call) :
  0 <= WS2812StripDriver.get_led_count backend ->
  Z.of_nat (length (_pixels (run_strip_calls calls (__init__ backend)))) =
    WS2812StripDriver.get_led_count backend /\
  num_pixels (run_strip_calls calls (__init__ backend)) =
    WS2812StripDriver.get_led_count backend.
Proof.
  intros Hn.
  destruct (strip_run_calls_wf calls (__init__ backend) Hn (strip_init_wf backend Hn))
    as [Hc Hwf].
  unfold strip_wf in Hwf. unfold num_pixels. rewrite Hwf, Hc. auto.
Qed.

(** C10. [show] changes neither the pixel buffer nor the brightness (nor the
    LED count) of the strip, whatever the backend does with the frame: the
    scaling and the reordering only exist in the array passed to [write]. *)
Theorem show_preserves_pixels_and_brightness (self : t D) :
  _pixels (snd (show self)) = _pixels self /\
  _brightness (snd (show self)) = _brightness self /\
  _led_count (snd (show self)) = _led_count self.
Proof.
  unfold show.
  destruct (call_backend_frame
              (WS2812StripDriver.write
                 (show_buffer (_pixels self) (_brightness self))) self)
    as (H1 & H2 & H3 & _).
  auto.
Qed.

Lemma max_min_finite (x : float) (my : positive) (ey : Z) :
  py_max (py_min x (S754_finite false my ey)) float_0_0 =
  if float_lt x float_0_0 then float_0_0
  else if float_lt (S754_finite false my ey) x then S754_finite false my ey
  else x.
Proof.
  unfold py_max, py_min, float_lt, SFltb, float_0_0.
  destruct x as [s|s| |s m e]; try (destruct s); try reflexivity;
    cbn [SFcompare];
    destruct (ey ?= e); try reflexivity;
    destruct (Pos.compare_cont Eq my m); reflexivity.
Qed.

Lemma max_min_is_clamp (x : float) :
  py_max (py_min x float_1_0) float_0_0 = clamp_unit x.
Proof. apply max_min_finite. Qed.

Lemma between_finite (x : float) (my : positive) (ey : Z) :
  x <> S754_nan ->
  float_lt x float_0_0 = false ->
  float_lt (S754_finite false my ey) x = false ->
  float_le float_0_0 x = true /\ float_le x (S754_finite false my ey) = true.
Proof.
  unfold float_lt, float_le, SFltb, SFleb, float_0_0.
  destruct x as [s|s| |s m e]; [| |contradiction|];
    destruct s; cbn [SFcompare]; try discriminate; try (split; reflexivity).
  pose proof (Pos.compare_cont_antisym m my Eq) as Hanti.
  change (CompOpp Eq) with Eq in Hanti.
  rewrite (Z.compare_antisym e ey), <- Hanti.
  destruct (e ?= ey); cbn [CompOpp]; try discriminate; try (split; reflexivity).
  destruct (Pos.compare_cont Eq m my); cbn [CompOpp];
    try discriminate; split; reflexivity.
Qed.

Lemma clamp_unit_in_unit_interval (x : float) :
  valid_binary prec emax x = true -> x <> S754_nan ->
  in_unit_interval (clamp_unit x) = true.
Proof.
  intros Hvalid Hnan. unfold clamp_unit, in_unit_interval.
  destruct (float_lt x float_0_0) eqn:H0; [reflexivity|].
  destruct (float_lt float_1_0 x) eqn:H1; [reflexivity|].
  destruct (between_finite x _ _ Hnan H0 H1) as [Hle0 Hle1].
  unfold float_1_0. rewrite Hvalid, Hle0, Hle1. reflexivity.
Qed.

Lemma show_buffer_wire_triples (pixels : list Color.t) (brightness : float) :
  in_unit_interval brightness = true ->
  Forall color_ok pixels ->
  show_buffer pixels brightness = map (wire_triple brightness) pixels.
Proof.
  intros Hb Hpx. unfold show_buffer.
  apply Forall_fmap_ext_1. eapply Forall_impl; [exact Hpx|].
  intros p (Hr & Hg & Hbl). unfold wire_triple, scaled. cbn [map].
  rewrite !astype_uint8_scaled by assumption. reflexivity.
Qed.

Lemma show_buffer_exact_rows (pixels : list Color.t) (brightness : float) :
  in_unit_interval brightness = true ->
  Forall color_ok pixels ->
  show_buffer pixels brightness = map (exact_row brightness) pixels.
Proof.
  intros Hb Hpx. rewrite show_buffer_wire_triples by assumption.
  apply Forall_fmap_ext_1. eapply Forall_impl; [exact Hpx|].
  intros p (Hr & Hg & Hbl). unfold wire_triple, exact_row.
  rewrite !ScalingFacts.scaled_is_exact_scaled by assumption. reflexivity.
Qed.


(** [set_brightness] away from NaN. For every float [b] other than NaN,
    [set_brightness b] returns normally and stores [b] clamped into
    [0.0, 1.0]: [0.0] when [b < 0.0], [1.0] when [b > 1.0], [b] itself
    otherwise; the stored value lies in [0.0, 1.0]; pixels and backend are
    untouched; and a following [show] builds its frame from the clamped
    value. In particular [-0.5] stores [0.0] and [1.5] stores [1.0]. *)
Theorem set_brightness_clamps (self : t D) (brightness : float) :
  valid_binary prec emax brightness = true ->
  brightness <> S754_nan ->
  fst (set_brightness brightness self) = Return tt /\
  _brightness (snd (set_brightness brightness self)) = clamp_unit brightness /\
  in_unit_interval (clamp_unit brightness) = true /\
  _pixels (snd (set_brightness brightness self)) = _pixels self /\
  _backend (snd (set_brightness brightness self)) = _backend self /\
  show (snd (set_brightness brightness self)) =
    call_backend
      (WS2812StripDriver.write
         (show_buffer (_pixels self) (clamp_unit brightness)))
      (snd (set_brightness brightness self)) /\
  _brightness (snd (set_brightness float_neg_0_5 self)) = float_0_0 /\
  _brightness (snd (set_brightness float_1_5 self)) = float_1_0.
Proof.
  intros Hvalid Hnan.
  unfold set_brightness, show. cbn [fst snd _brightness _pixels _backend].
  rewrite max_min_is_clamp.
  repeat split; try reflexivity.
  apply clamp_unit_in_unit_interval; assumption.
Qed.

End Generic.

(** *** Instances on the SPI driver *)

Lemma set_pixel_color_in_and_out_of_range_witness :
  set_pixel_color 1 (Color.mk 9 8 7) (get_strip (WS2812SpiDriverSpec.fresh 3)) =
    (Return tt,
     with_pixels (get_strip (WS2812SpiDriverSpec.fresh 3))
       [Color.mk 0 0 0; Color.mk 9 8 7; Color.mk 0 0 0]) /\
  set_pixel_color 3 (Color.mk 9 8 7) (get_strip (WS2812SpiDriverSpec.fresh 3)) =
    (Raise IndexError, get_strip (WS2812SpiDriverSpec.fresh 3)).
Proof.
  split.
  - destruct (set_pixel_color_in_and_out_of_range
                (get_strip (WS2812SpiDriverSpec.fresh 3)) 1 (Color.mk 9 8 7))
      as [Hin _]; [reflexivity|].
    rewrite Hin; [reflexivity | cbn; lia].
  - destruct (set_pixel_color_in_and_out_of_range
                (get_strip (WS2812SpiDriverSpec.fresh 3)) 3 (Color.mk 9 8 7))
      as [_ Hout]; [reflexivity|].
    rewrite Hout; [reflexivity | cbn; lia].
Defined.

(** The index [-1] lies outside [[0, 3)], and yet on a strip of three LEDs
    [set_pixel_color (-1) c] raises nothing and overwrites the last pixel. *)
Lemma set_pixel_color_minus_one_accepted :
  WS2812SpiDriver.__init__ 0 0 3 = Return (WS2812SpiDriverSpec.fresh 3) /\
  ~ (0 <= -1 < 3) /\
  set_pixel_color (-1) (Color.mk 9 8 7)
    (get_strip (WS2812SpiDriverSpec.fresh 3)) =
    (Return tt,
     with_pixels (get_strip (WS2812SpiDriverSpec.fresh 3))
       [Color.mk 0 0 0; Color.mk 0 0 0; Color.mk 9 8 7]) /\
  fst (set_pixel_color (-1) (Color.mk 9 8 7)
         (get_strip (WS2812SpiDriverSpec.fresh 3))) <> Raise IndexError.
Proof.
  split; [reflexivity|]. split; [lia|]. split; [reflexivity|].
  cbn. discriminate.
Qed.

Lemma set_pixel_color_negative_index_witness :
  set_pixel_color (-3) (Color.mk 9 8 7)
    (get_strip (WS2812SpiDriverSpec.fresh 3)) =
  (Return tt,
   with_pixels (get_strip (WS2812SpiDriverSpec.fresh 3))
     [Color.mk 9 8 7; Color.mk 0 0 0; Color.mk 0 0 0]).
Proof.
  rewrite (set_pixel_color_negative_index
             (get_strip (WS2812SpiDriverSpec.fresh 3)) (-3) (Color.mk 9 8 7)).
  - reflexivity.
  - reflexivity.
  - cbn. lia.
Defined.

Lemma pixel_buffer_length_invariant_witness :
  Z.of_nat
    (length
       (_pixels
          (run_strip_calls
             [SetPixelColor 7 (Color.mk 1 2 3); SetAllPixels (Color.mk 4 5 6);
              Show; SetPixelColor (-1) (Color.mk 1 2 3); Clear;
              SetBrightness float_neg_0_5]
             (__init__ (WS2812SpiDriverSpec.fresh 3))))) = 3.
Proof.
  destruct (pixel_buffer_length_invariant (WS2812SpiDriverSpec.fresh 3)
              [SetPixelColor 7 (Color.mk 1 2 3); SetAllPixels (Color.mk 4 5 6);
               Show; SetPixelColor (-1) (Color.mk 1 2 3); Clear;
               SetBrightness float_neg_0_5]) as [Hlen _].
  - cbn. lia.
  - exact Hlen.
Defined.


Lemma set_brightness_clamps_witness :
  _brightness
    (snd (set_brightness float_1_5 (get_strip (WS2812SpiDriverSpec.fresh 3)))) =
  float_1_0 /\
  in_unit_interval float_1_0 = true.
Proof.
  destruct (set_brightness_clamps
              (get_strip (WS2812SpiDriverSpec.fresh 3)) float_1_5)
    as (_ & Hstored & Hin & _).
  - reflexivity.
  - discriminate.
  - split; [exact Hstored | exact Hin].
Defined.

(** C6, where the code misses it. [set_brightness] is meant to clamp every
    input into [0.0, 1.0] (so says its docstring, and so does
    [max(min(b, 1.0), 0.0)] for every other float), but on NaN both
    comparisons are false, [min] and [max] keep their first argument, and
    NaN is stored: the brightness is then not in [0.0, 1.0]. *)
Lemma set_brightness_nan_stored :
  _brightness
    (snd (set_brightness S754_nan (get_strip (WS2812SpiDriverSpec.fresh 3)))) =
  S754_nan /\
  in_unit_interval S754_nan = false /\
  float_le float_0_0 S754_nan = false /\
  float_le S754_nan float_1_0 = false.
Proof. repeat split; reflexivity. Qed.

End StripFacts.

(** ** The rotation effect *)

Module EffectFacts.
Import Strip StripSpec FloatSpec EffectSpec.

Lemma length_show_buffer (pixels : list Color.t) (brightness : float) :
  length (np.ravel (show_buffer pixels brightness)) = (3 * length pixels)%nat.
Proof.
  unfold np.ravel, show_buffer.
  induction pixels as [|p pixels IH]; [reflexivity|].
  rewrite map_cons. cbn [concat]. rewrite length_app, IH.
  cbn [map length]. lia.
Qed.




(** One turn of the loop of [white_rotate] on a nonempty pattern. *)
Lemma white_rotate_loop_S {D} `{WS2812StripDriver.t D} (n : nat)
  (led_count : Z) (delay : float) (first : Color.t) (rest : list Color.t)
  (self : Strip.t D) :
  white_rotate_loop (S n) led_count delay (first :: rest) self =
  match
    for_each (range led_count)
      (fun i =>
         let* color := lift (list_getitem (rest ++ [first]) i) in
         set_pixel_color i color) self
  with
  | (Return _, s1) =>
      match show s1 with
      | (Return _, s2) =>
          white_rotate_loop n led_count delay (rest ++ [first]) s2
      | (Raise e, s2) => (Raise e, s2)
      end
  | (Raise e, s1) => (Raise e, s1)
  end.
Proof.
  cbn [white_rotate_loop]. unfold bind at 1 2. cbn [lift list_pop0 fst snd].
  destruct (for_each _ _ self) as [[[]|e] s1]; [|reflexivity].
  unfold bind. destruct (show s1) as [[[]|e] s2]; reflexivity.
Qed.



(** Calls on a strip keep its SPI backend within its invariant. *)
Lemma run_call_backend_wf (n : Z) (c : strip_call)
  (self : Strip.t WS2812SpiDriver.t) :
  WS2812SpiDriverSpec.driver_wf n (_backend self) ->
  WS2812SpiDriverSpec.driver_wf n (_backend (snd (run_strip_call c self))).
Proof.
  intros Hwf. destruct c; cbn [run_strip_call].
  - unfold set_pixel_color. destruct (list_setitem _ _ _); exact Hwf.
  - exact Hwf.
  - exact Hwf.
  - unfold show.
    match goal with |- context [call_backend ?c ?s] =>
      destruct (StripFacts.call_backend_frame c s) as (_ & _ & _ & ->)
    end.
    apply (WS2812SpiDriverFacts.driver_run_call_wf n (WS2812SpiDriverSpec.Write _)).
    exact Hwf.
  - unfold clear.
    match goal with |- context [call_backend ?c ?s] =>
      destruct (StripFacts.call_backend_frame c s) as (_ & _ & _ & ->)
    end.
    apply (WS2812SpiDriverFacts.driver_run_call_wf n WS2812SpiDriverSpec.Clear).
    exact Hwf.
Qed.

Lemma run_calls_backend_wf (n : Z) (calls : list strip_call)
  (self : Strip.t WS2812SpiDriver.t) :
  WS2812SpiDriverSpec.driver_wf n (_backend self) ->
  WS2812SpiDriverSpec.driver_wf n (_backend (run_strip_calls calls self)).
Proof.
  revert self. induction calls as [|c calls IH]; intros self Hwf; [exact Hwf|].
  change (run_strip_calls (c :: calls) self)
    with (run_strip_calls calls (snd (run_strip_call c self))).
  apply IH, run_call_backend_wf, Hwf.
Qed.






End EffectFacts.

(** * Further properties *)

(** ** The SPI driver: construction, frames on the wire, decoding *)

Module DriverExtraFacts.
Import WS2812SpiDriver WS2812SpiDriverSpec CodecSpec FloatSpec.

(** A driver that was just built has transmitted nothing. *)
Lemma init_transmitted_nil (spi_bus spi_device n : Z) (d0 : t) :
  __init__ spi_bus spi_device n = Return d0 -> transmitted d0 = [].
Proof.
  unfold __init__. intros Hinit.
  destruct (np.zeros (PREAMBLE + n * 24)) as [z|]; [|discriminate].
  cbn [obind] in Hinit.
  destruct (np.full (n * 24) LED_ZERO) as [f|]; [|discriminate].
  cbn [obind] in Hinit.
  destruct (np.setitem_from z (Z.to_nat PREAMBLE) f); [|discriminate].
  cbn [obind] in Hinit. injection Hinit as <-. reflexivity.
Qed.

(** X1. Construction succeeds exactly for a nonnegative LED count: it then
    yields a driver reporting that count, configured for 6.5 MHz, mode 0,
    most significant bit first, that has transmitted nothing; for a negative
    count it raises [ValueError]. *)
Theorem init_succeeds_iff_nonnegative (spi_bus spi_device n : Z) :
  (0 <= n ->
   exists d0,
     __init__ spi_bus spi_device n = Return d0 /\
     get_led_count d0 = n /\
     transmitted d0 = [] /\
     SpiDev.max_speed_hz (_device d0) = 6500000 /\
     SpiDev.mode (_device d0) = 0 /\
     SpiDev.lsbfirst (_device d0) = false /\
     SpiDev.bus (_device d0) = spi_bus /\
     SpiDev.device (_device d0) = spi_device) /\
  (n < 0 -> __init__ spi_bus spi_device n = Raise ValueError).
Proof.
  split; intros Hn; unfold __init__, np.zeros, np.full.
  - destruct (Z.ltb_spec (PREAMBLE + n * 24) 0) as [Hneg|_];
      [unfold PREAMBLE in Hneg; lia|].
    destruct (Z.ltb_spec (n * 24) 0) as [Hneg|_]; [lia|].
    cbn [obind].
    replace (Z.to_nat (PREAMBLE + n * 24))
      with (Z.to_nat PREAMBLE + Z.to_nat (n * 24))%nat
      by (unfold PREAMBLE; lia).
    rewrite replicate_add.
    replace (Z.to_nat PREAMBLE)
      with (length (replicate (Z.to_nat PREAMBLE) 0)) at 2
      by apply length_replicate.
    rewrite WS2812SpiDriverFacts.setitem_from_preamble
      by (rewrite !length_replicate; reflexivity).
    cbn [obind]. eexists. split; [reflexivity|].
    cbn. repeat split; reflexivity.
  - destruct (Z.ltb_spec (PREAMBLE + n * 24) 0) as [_|_]; [reflexivity|].
    cbn [obind].
    destruct (Z.ltb_spec (n * 24) 0) as [_|Hpos]; [reflexivity|lia].
Qed.

Lemma init_succeeds_iff_nonnegative_witness :
  (exists d0, __init__ 1 0 24 = Return d0 /\ get_led_count d0 = 24) /\
  __init__ 1 0 (-1) = Raise ValueError.
Proof.
  split.
  - destruct (proj1 (init_succeeds_iff_nonnegative 1 0 24))
      as (d0 & Hinit & Hcount & _); [lia|].
    exists d0. split; assumption.
  - apply (proj2 (init_succeeds_iff_nonnegative 1 0 (-1))). lia.
Defined.

Lemma decode_encoded_symbol (t : bool) :
  decode_symbol (np.uint8 (if Z.b2z t =? 1 then LED_ONE else LED_ZERO)) =
  Some t.
Proof. destruct t; reflexivity. Qed.

Lemma byte_of_testbits (x : Z) :
  is_uint8 x ->
  byte_of_bits (Z.testbit x 7) (Z.testbit x 6) (Z.testbit x 5)
    (Z.testbit x 4) (Z.testbit x 3) (Z.testbit x 2) (Z.testbit x 1)
    (Z.testbit x 0) = x.
Proof.
  unfold is_uint8. intros Hx.
  assert (Hall : forallb byte_round_trip (map Z.of_nat (seq 0 256)) = true)
    by (vm_compute; reflexivity).
  rewrite forallb_forall in Hall.
  assert (Hin : In x (map Z.of_nat (seq 0 256))).
  { rewrite <- (Z2Nat.id x) by lia. apply in_map, in_seq. lia. }
  specialize (Hall x Hin). unfold byte_round_trip in Hall.
  apply Z.eqb_eq in Hall. exact Hall.
Qed.

Lemma decode_symbols_encoded (bytes : list Z) :
  Forall is_uint8 bytes ->
  decode_symbols
    (map np.uint8 (np.where_eq_1 (np.unpackbits bytes) LED_ONE LED_ZERO)) =
  Some bytes.
Proof.
  induction 1 as [|x bytes Hx _ IH]; [reflexivity|].
  unfold np.unpackbits, np.where_eq_1 in *. cbn [flat_map].
  rewrite !map_app. unfold np.byte_bits at 1.
  cbn [map app decode_symbols].
  rewrite !decode_encoded_symbol, IH, byte_of_testbits by exact Hx.
  reflexivity.
Qed.

(** Decoding undoes encoding, on bytes. *)
Lemma decode_encoded_frame (bytes : list Z) :
  Forall is_uint8 bytes -> decode_frame (encoded_frame bytes) = Some bytes.
Proof.
  intros Hb. unfold decode_frame, encoded_frame.
  replace (Z.to_nat PREAMBLE)
    with (length (replicate (Z.to_nat PREAMBLE) 0)) at 1
    by apply length_replicate.
  rewrite drop_app_length. apply decode_symbols_encoded, Hb.
Qed.

(** X2. Round trip: the frame that [write] hands to the transport, read the
    way the LED chips read it (eight symbols per byte, most significant bit
    first, after the preamble), gives back exactly the bytes passed to
    [write]. *)
Theorem written_frame_decodes_to_input
  (spi_bus spi_device n : Z) (d0 : t) (calls : list driver_call)
  (buffer : list (list Z)) :
  __init__ spi_bus spi_device n = Return d0 ->
  Z.of_nat (length (np.ravel buffer)) = n * 3 ->
  Forall is_uint8 (np.ravel buffer) ->
  exists frame,
    transmitted (snd (write buffer (run_driver_calls calls d0))) =
      transmitted (run_driver_calls calls d0) ++ [frame] /\
    decode_frame frame = Some (np.ravel buffer).
Proof.
  intros Hinit Hlen Hbytes.
  pose proof (WS2812SpiDriverFacts.driver_run_calls_wf n calls d0
                (WS2812SpiDriverFacts.driver_init_wf _ _ _ _ Hinit)) as Hwf.
  exists (encoded_frame (np.ravel buffer)).
  rewrite (WS2812SpiDriverFacts.write_wf_ok n _ _ Hwf Hlen).
  split; [reflexivity|]. apply decode_encoded_frame, Hbytes.
Qed.

Lemma written_frame_decodes_to_input_witness :
  exists frame,
    transmitted
      (snd (write [[0; 255; 17]; [128; 1; 254]]
              (run_driver_calls [Clear] (fresh 2)))) =
      transmitted (run_driver_calls [Clear] (fresh 2)) ++ [frame] /\
    decode_frame frame = Some [0; 255; 17; 128; 1; 254].
Proof.
  apply (written_frame_decodes_to_input 0 0 2 (fresh 2) [Clear]
           [[0; 255; 17]; [128; 1; 254]]).
  - reflexivity.
  - reflexivity.
  - repeat constructor; lia.
Defined.


Lemma symbols_where_eq_1 (bits : list Z) :
  Forall (fun s => s = LED_ONE \/ s = LED_ZERO)
         (map np.uint8 (np.where_eq_1 bits LED_ONE LED_ZERO)).
Proof.
  unfold np.where_eq_1. rewrite Forall_forall. intros s Hs.
  apply list_elem_of_fmap in Hs as (v & -> & Hv).
  apply list_elem_of_fmap in Hv as (bit & -> & _).
  destruct (bit =? 1); [left|right]; reflexivity.
Qed.

Lemma encoded_frame_ok (n : Z) (bytes : list Z) :
  Z.of_nat (length bytes) = n * 3 -> frame_ok n (encoded_frame bytes).
Proof.
  intros Hlen. unfold frame_ok.
  rewrite WS2812SpiDriverFacts.encoded_frame_length.
  split; [lia|]. unfold encoded_frame. split.
  - replace (Z.to_nat PREAMBLE)
      with (length (replicate (Z.to_nat PREAMBLE) 0)) at 1
      by apply length_replicate.
    apply take_app_length.
  - replace (Z.to_nat PREAMBLE)
      with (length (replicate (Z.to_nat PREAMBLE) 0)) at 1
      by apply length_replicate.
    rewrite drop_app_length. apply symbols_where_eq_1.
Qed.

Lemma clear_frame_ok (n : Z) : 0 <= n -> frame_ok n (clear_frame n).
Proof.
  intros Hn. unfold frame_ok, clear_frame.
  rewrite length_app, !length_replicate.
  split; [unfold PREAMBLE; lia|]. split.
  - replace (Z.to_nat PREAMBLE)
      with (length (replicate (Z.to_nat PREAMBLE) 0)) at 1
      by apply length_replicate.
    apply take_app_length.
  - replace (Z.to_nat PREAMBLE)
      with (length (replicate (Z.to_nat PREAMBLE) 0)) at 1
      by apply length_replicate.
    rewrite drop_app_length. apply Forall_replicate. right. reflexivity.
Qed.

(** What one call adds to the transport log of a driver for [n] LEDs. *)
Lemma run_driver_call_transmitted (n : Z) (c : driver_call) (self : t) :
  driver_wf n self ->
  exists frames,
    transmitted (snd (run_driver_call c self)) = transmitted self ++ frames /\
    Forall (frame_ok n) frames /\
    length frames = (if transmits n c then 1 else 0)%nat.
Proof.
  intros Hwf. destruct c as [buffer|]; cbn [run_driver_call transmits].
  - destruct (Z.eqb_spec (Z.of_nat (length (np.ravel buffer))) (n * 3))
      as [He|Hne].
    + rewrite (WS2812SpiDriverFacts.write_wf_ok n) by assumption.
      exists [encoded_frame (np.ravel buffer)].
      split; [reflexivity|]. split; [|reflexivity].
      constructor; [|constructor]. apply encoded_frame_ok, He.
    + rewrite (WS2812SpiDriverFacts.write_wf_mismatch n) by assumption.
      exists []. rewrite app_nil_r. repeat split. constructor.
  - exists [_clear_buffer self]. split; [reflexivity|].
    split; [|reflexivity].
    destruct Hwf as (Hn & _ & -> & _).
    constructor; [|constructor]. apply clear_frame_ok, Hn.
Qed.

Lemma run_driver_calls_transmitted (n : Z) (calls : list driver_call)
  (self : t) :
  driver_wf n self ->
  exists frames,
    transmitted (run_driver_calls calls self) = transmitted self ++ frames /\
    Forall (frame_ok n) frames /\
    length frames = length (List.filter (transmits n) calls).
Proof.
  revert self. induction calls as [|c calls IH]; intros self Hwf.
  - exists []. rewrite app_nil_r. repeat split. constructor.
  - change (run_driver_calls (c :: calls) self)
      with (run_driver_calls calls (snd (run_driver_call c self))).
    destruct (run_driver_call_transmitted n c self Hwf)
      as (f1 & Ht1 & Hok1 & Hlen1).
    destruct (IH (snd (run_driver_call c self)))
      as (f2 & Ht2 & Hok2 & Hlen2);
      [apply WS2812SpiDriverFacts.driver_run_call_wf, Hwf|].
    exists (f1 ++ f2). rewrite Ht2, Ht1, app_assoc.
    split; [reflexivity|]. split; [apply Forall_app; auto|].
    rewrite length_app, Hlen1, Hlen2. cbn [List.filter].
    destruct (transmits n c); reflexivity.
Qed.

(** X3. Whatever calls a client makes on a driver built for [n] LEDs, in any
    order and with buffers of any length: every frame the driver has handed
    to the transport is [42 + n * 24] bytes long, starts with 42 zero bytes
    and holds only the symbols [LED_ONE] and [LED_ZERO] after them; exactly
    one frame was sent per [clear] and per [write] of [n * 3] bytes, none for
    a [write] of another length; and the driver still reports [n] LEDs. *)
Theorem transmitted_frames_well_formed
  (spi_bus spi_device n : Z) (d0 : t) (calls : list driver_call) :
  __init__ spi_bus spi_device n = Return d0 ->
  Forall (frame_ok n) (transmitted (run_driver_calls calls d0)) /\
  length (transmitted (run_driver_calls calls d0)) =
    length (List.filter (transmits n) calls) /\
  get_led_count (run_driver_calls calls d0) = n.
Proof.
  intros Hinit.
  pose proof (WS2812SpiDriverFacts.driver_init_wf _ _ _ _ Hinit) as Hwf.
  destruct (run_driver_calls_transmitted n calls d0 Hwf)
    as (frames & Ht & Hok & Hlen).
  pose proof (init_transmitted_nil _ _ _ _ Hinit) as Hempty.
  rewrite Ht, Hempty. cbn [app].
  split; [exact Hok|]. split; [exact Hlen|].
  apply (WS2812SpiDriverFacts.driver_run_calls_wf n calls d0 Hwf).
Qed.

Lemma transmitted_frames_well_formed_witness :
  length
    (transmitted
       (run_driver_calls
          [Write [[1; 2; 3]]; Write [[1; 2]]; Clear; Write []; Clear]
          (fresh 1))) = 3%nat.
Proof.
  destruct (transmitted_frames_well_formed 0 0 1 (fresh 1)
              [Write [[1; 2; 3]]; Write [[1; 2]]; Clear; Write []; Clear])
    as (_ & Hlen & _).
  - reflexivity.
  - exact Hlen.
Defined.

End DriverExtraFacts.

(** ** Calls within range keep the strip within range *)

Module CallFacts.
Import Strip StripSpec FloatSpec.

Section Generic.
Context {D : Type} `{WS2812StripDriver.t D}.

Lemma run_strip_call_in_range (c : strip_call) (self : t D) :
  call_in_range c ->
  Forall color_ok (_pixels self) ->
  in_unit_interval (_brightness self) = true ->
  Forall color_ok (_pixels (snd (run_strip_call c self))) /\
  in_unit_interval (_brightness (snd (run_strip_call c self))) = true.
Proof.
  intros Hc Hpx Hb.
  destruct c as [i color|color|x| |]; cbn [run_strip_call call_in_range] in *.
  - unfold set_pixel_color, list_setitem.
    destruct (py_index (length (_pixels self)) i) as [k|e];
      cbn [obind snd _pixels _brightness]; [|split; assumption].
    split; [|exact Hb]. apply Forall_insert; assumption.
  - cbn [set_all_pixels snd _pixels _brightness]. split; [|exact Hb].
    apply Forall_replicate, Hc.
  - cbn [set_brightness snd _pixels _brightness]. split; [exact Hpx|].
    rewrite StripFacts.max_min_is_clamp.
    apply StripFacts.clamp_unit_in_unit_interval; apply Hc.
  - unfold show.
    match goal with |- context [call_backend ?c ?s] =>
      destruct (StripFacts.call_backend_frame c s) as (_ & -> & -> & _)
    end.
    split; assumption.
  - unfold clear.
    match goal with |- context [call_backend ?c ?s] =>
      destruct (StripFacts.call_backend_frame c s) as (_ & -> & -> & _)
    end.
    cbn [_pixels _brightness]. split; [|exact Hb].
    apply Forall_replicate. repeat split; cbn; lia.
Qed.

Lemma run_strip_calls_in_range (calls : list strip_call) (self : t D) :
  Forall call_in_range calls ->
  Forall color_ok (_pixels self) ->
  in_unit_interval (_brightness self) = true ->
  Forall color_ok (_pixels (run_strip_calls calls self)) /\
  in_unit_interval (_brightness (run_strip_calls calls self)) = true.
Proof.
  intros Hcalls. revert self.
  induction Hcalls as [|c calls Hc _ IH]; intros self Hpx Hb;
    [split; assumption|].
  change (run_strip_calls (c :: calls) self)
    with (run_strip_calls calls (snd (run_strip_call c self))).
  destruct (run_strip_call_in_range c self Hc Hpx Hb) as [Hpx' Hb'].
  apply IH; assumption.
Qed.

Lemma init_in_range (backend : D) (calls : list strip_call) :
  Forall call_in_range calls ->
  Forall color_ok (_pixels (run_strip_calls calls (__init__ backend))) /\
  in_unit_interval (_brightness (run_strip_calls calls (__init__ backend)))
    = true.
Proof.
  intros Hcalls. apply run_strip_calls_in_range; [exact Hcalls| |reflexivity].
  cbn [__init__ _pixels]. apply Forall_replicate. repeat split; cbn; lia.
Qed.

End Generic.

End CallFacts.

(** ** Strips on the SPI driver *)

Module SpiStripFacts.
Import Strip StripSpec SpiStripSpec FloatSpec CodecSpec.

Lemma run_strip_calls_spi_strip (spi_bus spi_device n : Z)
  (d0 : WS2812SpiDriver.t) (calls : list strip_call) :
  WS2812SpiDriver.__init__ spi_bus spi_device n = Return d0 ->
  spi_strip n (run_strip_calls calls (get_strip d0)).
Proof.
  intros Hinit.
  pose proof (WS2812SpiDriverFacts.driver_init_wf _ _ _ _ Hinit) as Hwf.
  assert (Hn : 0 <= n) by apply Hwf.
  assert (Hled : WS2812StripDriver.get_led_count d0 = n) by apply Hwf.
  assert (H0 : _led_count (get_strip d0) = n) by exact Hled.
  destruct (StripFacts.strip_run_calls_wf calls (get_strip d0)) as [Hc Hlen].
  - rewrite H0. exact Hn.
  - apply StripFacts.strip_init_wf. rewrite Hled. exact Hn.
  - unfold strip_wf in Hlen. rewrite Hc, H0 in Hlen. rewrite H0 in Hc.
    split; [exact Hc|]. split; [exact Hlen|].
    apply EffectFacts.run_calls_backend_wf. exact Hwf.
Qed.

(** [show] on such a strip: the driver accepts the buffer. *)
Lemma show_spi_strip (n : Z) (self : Strip.t WS2812SpiDriver.t) :
  spi_strip n self ->
  fst (show self) = Return tt /\
  _pixels (snd (show self)) = _pixels self /\
  _brightness (snd (show self)) = _brightness self /\
  frames (snd (show self)) =
    frames self ++
    [WS2812SpiDriverSpec.encoded_frame
       (np.ravel (show_buffer (_pixels self) (_brightness self)))] /\
  spi_strip n (snd (show self)).
Proof.
  intros (Hc & Hlen & Hwf).
  set (buffer := show_buffer (_pixels self) (_brightness self)).
  pose proof (WS2812SpiDriverFacts.driver_run_call_wf n
                (WS2812SpiDriverSpec.Write buffer) _ Hwf) as Hwf'.
  cbn [WS2812SpiDriverSpec.run_driver_call] in Hwf'.
  assert (Hbuf : Z.of_nat (length (np.ravel buffer)) = n * 3).
  { unfold buffer. rewrite EffectFacts.length_show_buffer. lia. }
  pose proof (WS2812SpiDriverFacts.write_wf_ok n _ buffer Hwf Hbuf) as Hw.
  unfold show, call_backend, frames.
  cbn [WS2812StripDriver.write WS2812SpiDriver.driver]. fold buffer.
  destruct (WS2812SpiDriver.write buffer (_backend self)) as [o d].
  injection Hw as -> ->.
  cbn [fst snd _pixels _brightness _backend] in *.
  split; [reflexivity|]. split; [reflexivity|]. split; [reflexivity|].
  split; [reflexivity|].
  unfold spi_strip. cbn [_led_count _pixels _backend]. auto.
Qed.

Lemma is_uint8_astype (x : float) : is_uint8 (np.astype_uint8 x).
Proof.
  unfold is_uint8, np.astype_uint8, np.uint8.
  pose proof (Z.mod_pos_bound (float_trunc x) 256 ltac:(lia)). lia.
Qed.

Lemma show_buffer_bytes (pixels : list Color.t) (brightness : float) :
  Forall is_uint8 (np.ravel (show_buffer pixels brightness)).
Proof.
  unfold np.ravel, show_buffer.
  induction pixels as [|p pixels IH]; [constructor|].
  rewrite map_cons. cbn [concat]. apply Forall_app. split; [|exact IH].
  cbn [map]. repeat constructor; apply is_uint8_astype.
Qed.

(** X4. On a strip obtained from an SPI driver built for [n] LEDs, after any
    sequence of calls within range (8-bit colors, brightness arguments other
    than NaN), [show] does not raise: it transmits exactly one frame, well
    formed for [n] LEDs, and what the LED chips read from it is, pixel after
    pixel, three bytes for green, red and blue in that order, each being
    what integer arithmetic alone says the stored channel becomes at the
    stored brightness ([exact_row]). *)
Theorem show_transmits_decodable_frame
  (spi_bus spi_device n : Z) (d0 : WS2812SpiDriver.t)
  (calls : list strip_call) :
  WS2812SpiDriver.__init__ spi_bus spi_device n = Return d0 ->
  Forall call_in_range calls ->
  fst (show (run_strip_calls calls (get_strip d0))) = Return tt /\
  exists frame,
    frames (snd (show (run_strip_calls calls (get_strip d0)))) =
      frames (run_strip_calls calls (get_strip d0)) ++ [frame] /\
    frame_ok n frame /\
    decode_frame frame =
      Some (concat
              (map (exact_row
                      (_brightness (run_strip_calls calls (get_strip d0))))
                   (_pixels (run_strip_calls calls (get_strip d0))))).
Proof.
  intros Hinit Hcalls.
  pose proof (run_strip_calls_spi_strip _ _ _ _ calls Hinit) as Hs.
  destruct (CallFacts.init_in_range d0 calls Hcalls) as [Hpx Hb].
  change (__init__ d0) with (get_strip d0) in Hpx, Hb.
  set (s := run_strip_calls calls (get_strip d0)) in *.
  destruct (show_spi_strip n s Hs) as (Hret & _ & _ & Hfr & _).
  split; [exact Hret|]. eexists. split; [exact Hfr|]. split.
  - apply DriverExtraFacts.encoded_frame_ok.
    rewrite EffectFacts.length_show_buffer.
    destruct Hs as (_ & Hlen & _). lia.
  - rewrite DriverExtraFacts.decode_encoded_frame by apply show_buffer_bytes.
    rewrite StripFacts.show_buffer_exact_rows by assumption. reflexivity.
Qed.

Lemma show_transmits_decodable_frame_witness :
  fst (show
         (run_strip_calls
            [SetPixelColor 0 (Color.mk 10 20 30); SetBrightness float_1_5;
             SetPixelColor 9 (Color.mk 1 1 1); SetBrightness float_0_1]
            (get_strip (WS2812SpiDriverSpec.fresh 2)))) = Return tt.
Proof.
  destruct (show_transmits_decodable_frame 0 0 2 (WS2812SpiDriverSpec.fresh 2)
              [SetPixelColor 0 (Color.mk 10 20 30); SetBrightness float_1_5;
               SetPixelColor 9 (Color.mk 1 1 1); SetBrightness float_0_1])
    as [Hret _].
  - reflexivity.
  - repeat constructor; cbn; (lia || discriminate).
  - exact Hret.
Defined.


Lemma spi_strip_backend (n : Z) (self : Strip.t WS2812SpiDriver.t) :
  spi_strip n self -> WS2812SpiDriverSpec.driver_wf n (_backend self).
Proof. intros (_ & _ & Hwf). exact Hwf. Qed.

Lemma clear_spi_strip (n : Z) (self : Strip.t WS2812SpiDriver.t) :
  spi_strip n self ->
  fst (clear self) = Return tt /\
  _pixels (snd (clear self)) = replicate (Z.to_nat n) (Color.mk 0 0 0) /\
  _brightness (snd (clear self)) = _brightness self /\
  frames (snd (clear self)) =
    frames self ++ [WS2812SpiDriverSpec.clear_frame n] /\
  spi_strip n (snd (clear self)).
Proof.
  intros (Hc & Hlen & Hwf).
  pose proof Hwf as (Hn & Hdc & Hcb & Hbuf).
  unfold clear, call_backend, frames, WS2812SpiDriverSpec.transmitted.
  cbn [WS2812StripDriver.clear WS2812SpiDriver.driver].
  unfold WS2812SpiDriver.clear, WS2812SpiDriver.call_device,
    SpiDev.writebytes2.
  cbn [fst snd _pixels _brightness _backend _led_count
       WS2812SpiDriver._device WS2812SpiDriver._clear_buffer SpiDev.sent].
  rewrite Hcb, Hc. unfold list_mul.
  do 4 (split; [reflexivity|]).
  unfold spi_strip. cbn [_led_count _pixels _backend].
  split; [reflexivity|]. split; [rewrite length_replicate; lia|].
  unfold WS2812SpiDriverSpec.driver_wf.
  cbn [WS2812SpiDriver._led_count WS2812SpiDriver._clear_buffer
       WS2812SpiDriver._buffer].
  auto.
Qed.

(** X5. On a strip obtained from an SPI driver built for [n] LEDs, after any
    sequence of calls, [clear] (and so the effect [all_off]) returns
    normally, leaves [n] black pixels and the brightness as it was, and
    transmits exactly one frame, the precomputed clear frame. *)
Theorem clear_blackens_and_transmits_clear_frame
  (spi_bus spi_device n : Z) (d0 : WS2812SpiDriver.t)
  (calls : list strip_call) :
  WS2812SpiDriver.__init__ spi_bus spi_device n = Return d0 ->
  all_off (run_strip_calls calls (get_strip d0)) =
    clear (run_strip_calls calls (get_strip d0)) /\
  fst (clear (run_strip_calls calls (get_strip d0))) = Return tt /\
  _pixels (snd (clear (run_strip_calls calls (get_strip d0)))) =
    replicate (Z.to_nat n) (Color.mk 0 0 0) /\
  _brightness (snd (clear (run_strip_calls calls (get_strip d0)))) =
    _brightness (run_strip_calls calls (get_strip d0)) /\
  frames (snd (clear (run_strip_calls calls (get_strip d0)))) =
    frames (run_strip_calls calls (get_strip d0)) ++
    [WS2812SpiDriverSpec.clear_frame n].
Proof.
  intros Hinit.
  pose proof (run_strip_calls_spi_strip _ _ _ _ calls Hinit) as Hs.
  destruct (clear_spi_strip n _ Hs) as (H1 & H2 & H3 & H4 & _).
  split; [reflexivity|]. auto.
Qed.

Lemma clear_blackens_and_transmits_clear_frame_witness :
  _pixels
    (snd (clear
            (run_strip_calls [SetAllPixels (Color.mk 9 9 9); Show]
               (get_strip (WS2812SpiDriverSpec.fresh 2))))) =
  [Color.mk 0 0 0; Color.mk 0 0 0].
Proof.
  destruct (clear_blackens_and_transmits_clear_frame 0 0 2
              (WS2812SpiDriverSpec.fresh 2)
              [SetAllPixels (Color.mk 9 9 9); Show]) as (_ & _ & Hpx & _).
  - reflexivity.
  - exact Hpx.
Defined.

Lemma encode_black (k : nat) :
  map np.uint8
    (np.where_eq_1 (np.unpackbits (concat (replicate k [0; 0; 0])))
       WS2812SpiDriver.LED_ONE WS2812SpiDriver.LED_ZERO) =
  replicate (24 * k) WS2812SpiDriver.LED_ZERO.
Proof.
  induction k as [|k IH]; [reflexivity|].
  replace (24 * S k)%nat with (24 + 24 * k)%nat by lia.
  rewrite replicate_add, <- IH. reflexivity.
Qed.

Lemma uniform_frame_black (n : Z) :
  0 <= n -> uniform_frame n 0 0 0 = WS2812SpiDriverSpec.clear_frame n.
Proof.
  intros Hn.
  unfold uniform_frame, WS2812SpiDriverSpec.encoded_frame,
    WS2812SpiDriverSpec.clear_frame.
  rewrite encode_black. do 2 f_equal. lia.
Qed.

Lemma scaled_zero (brightness : float) :
  in_unit_interval brightness = true -> scaled brightness 0 = 0.
Proof.
  intros Hb.
  assert (H0 : is_uint8 0) by (unfold is_uint8; lia).
  pose proof (FloatFacts.scaled_channel_range 0 brightness H0 Hb) as H.
  unfold scaled. lia.
Qed.

(** Showing a buffer that holds [n] copies of one color. *)
Lemma show_uniform (n : Z) (c : Color.t) (self : Strip.t WS2812SpiDriver.t) :
  spi_strip n self ->
  in_unit_interval (_brightness self) = true ->
  color_ok c ->
  _pixels self = replicate (Z.to_nat n) c ->
  fst (show self) = Return tt /\
  frames (snd (show self)) =
    frames self ++
    [uniform_frame n (scaled (_brightness self) (Color.g c))
       (scaled (_brightness self) (Color.r c))
       (scaled (_brightness self) (Color.b c))] /\
  _pixels (snd (show self)) = replicate (Z.to_nat n) c /\
  _brightness (snd (show self)) = _brightness self /\
  spi_strip n (snd (show self)).
Proof.
  intros Hs Hb Hc Hpx.
  destruct (show_spi_strip n self Hs) as (Hret & Hp & Hbr & Hfr & Hs').
  split; [exact Hret|]. rewrite Hfr, Hp, Hbr.
  split; [|split; [exact Hpx|split; [reflexivity|exact Hs']]].
  do 2 f_equal. unfold uniform_frame. f_equal.
  rewrite StripFacts.show_buffer_wire_triples;
    [|exact Hb|rewrite Hpx; apply Forall_replicate, Hc].
  rewrite Hpx. unfold np.ravel.
  change (map (wire_triple (_brightness self)))
    with (fmap (M:=list) (wire_triple (_brightness self))).
  rewrite fmap_replicate. reflexivity.
Qed.

(** X6. The encoder and the precomputed clear frame agree: on a strip
    obtained from an SPI driver built for [n] LEDs whose pixels are all
    black (as after construction or after [clear]), at any brightness in
    [0.0, 1.0], [show] transmits exactly the clear frame. *)
Theorem show_of_black_buffer_is_clear_frame
  (spi_bus spi_device n : Z) (d0 : WS2812SpiDriver.t)
  (calls : list strip_call) :
  WS2812SpiDriver.__init__ spi_bus spi_device n = Return d0 ->
  in_unit_interval (_brightness (run_strip_calls calls (get_strip d0)))
    = true ->
  Forall (fun p => p = Color.mk 0 0 0)
         (_pixels (run_strip_calls calls (get_strip d0))) ->
  fst (show (run_strip_calls calls (get_strip d0))) = Return tt /\
  frames (snd (show (run_strip_calls calls (get_strip d0)))) =
    frames (run_strip_calls calls (get_strip d0)) ++
    [WS2812SpiDriverSpec.clear_frame n].
Proof.
  intros Hinit Hb Hblack.
  pose proof (run_strip_calls_spi_strip _ _ _ _ calls Hinit) as Hs.
  set (s := run_strip_calls calls (get_strip d0)) in *.
  assert (Hn : 0 <= n) by apply (spi_strip_backend n s Hs).
  assert (Hpx : _pixels s = replicate (Z.to_nat n) (Color.mk 0 0 0)).
  { destruct Hs as (_ & Hlen & _). symmetry. apply replicate_as_Forall.
    split; [lia|]. eapply Forall_impl; [exact Hblack|]. auto. }
  destruct (show_uniform n (Color.mk 0 0 0) s Hs Hb) as (Hret & Hfr & _);
    [repeat split; cbn; lia | exact Hpx |].
  split; [exact Hret|]. rewrite Hfr. cbn [Color.g Color.r Color.b].
  rewrite scaled_zero by exact Hb. rewrite uniform_frame_black by exact Hn.
  reflexivity.
Qed.

Lemma show_of_black_buffer_is_clear_frame_witness :
  frames
    (snd (show
            (run_strip_calls
               [SetAllPixels (Color.mk 3 4 5); SetBrightness float_0_1; Clear]
               (get_strip (WS2812SpiDriverSpec.fresh 3))))) =
  frames
    (run_strip_calls
       [SetAllPixels (Color.mk 3 4 5); SetBrightness float_0_1; Clear]
       (get_strip (WS2812SpiDriverSpec.fresh 3))) ++
  [WS2812SpiDriverSpec.clear_frame 3].
Proof.
  apply (show_of_black_buffer_is_clear_frame 0 0 3
           (WS2812SpiDriverSpec.fresh 3)
           [SetAllPixels (Color.mk 3 4 5); SetBrightness float_0_1; Clear]).
  - reflexivity.
  - reflexivity.
  - repeat constructor.
Defined.

End SpiStripFacts.

(** ** The strip on any backend: brightness *)

Module StripExtraFacts.
Import Strip StripSpec SpiStripSpec FloatSpec.

Section Generic.
Context {D : Type} `{WS2812StripDriver.t D}.

Lemma le_zero_not_lt (x : float) :
  float_le float_0_0 x = true -> float_lt x float_0_0 = false.
Proof.
  unfold float_le, float_lt, SFleb, SFltb, float_0_0.
  destruct x as [s|s| |s m e]; try destruct s; cbn [SFcompare];
    try discriminate; reflexivity.
Qed.

Lemma le_finite_not_lt (x : float) (my : positive) (ey : Z) :
  float_le x (S754_finite false my ey) = true ->
  float_lt (S754_finite false my ey) x = false.
Proof.
  unfold float_le, float_lt, SFleb, SFltb.
  destruct x as [s|s| |s m e]; try destruct s; cbn [SFcompare];
    try discriminate; try reflexivity.
  pose proof (Pos.compare_cont_antisym m my Eq) as Hanti.
  change (CompOpp Eq) with Eq in Hanti.
  rewrite (Z.compare_antisym e ey), <- Hanti.
  destruct (e ?= ey); cbn [CompOpp]; try discriminate; try reflexivity.
  destruct (Pos.compare_cont Eq m my); cbn [CompOpp];
    try discriminate; reflexivity.
Qed.

Lemma clamp_unit_id (x : float) :
  in_unit_interval x = true -> clamp_unit x = x.
Proof.
  unfold in_unit_interval. intros Hx.
  apply andb_true_iff in Hx as [Hx Hle1].
  apply andb_true_iff in Hx as [_ Hle0].
  unfold clamp_unit.
  rewrite (le_zero_not_lt x Hle0).
  unfold float_1_0 in *. rewrite (le_finite_not_lt x _ _ Hle1). reflexivity.
Qed.

(** X15. Round trip of the brightness: for a float [b] with
    [0.0 <= b <= 1.0], [get_brightness] after [set_brightness b] returns
    exactly [b]; nothing is rounded or replaced. *)
Theorem get_brightness_after_set_brightness
  (self : t D) (brightness : float) :
  in_unit_interval brightness = true ->
  get_brightness (snd (set_brightness brightness self)) = brightness.
Proof.
  intros Hb. unfold get_brightness, set_brightness. cbn [snd _brightness].
  rewrite StripFacts.max_min_is_clamp. apply clamp_unit_id, Hb.
Qed.

Lemma run_strip_call_brightness (c : strip_call) (self : t D) :
  match c with
  | SetBrightness x => valid_binary prec emax x = true /\ x <> S754_nan
  | _ => True
  end ->
  in_unit_interval (_brightness self) = true ->
  in_unit_interval (_brightness (snd (run_strip_call c self))) = true.
Proof.
  intros Hc Hb. destruct c as [i color|color|x| |]; cbn [run_strip_call].
  - unfold set_pixel_color. destruct (list_setitem _ _ _); exact Hb.
  - exact Hb.
  - unfold set_brightness. cbn [snd _brightness].
    rewrite StripFacts.max_min_is_clamp.
    apply StripFacts.clamp_unit_in_unit_interval; apply Hc.
  - unfold show.
    match goal with |- context [call_backend ?c ?s] =>
      destruct (StripFacts.call_backend_frame c s) as (_ & -> & _)
    end.
    exact Hb.
  - unfold clear.
    match goal with |- context [call_backend ?c ?s] =>
      destruct (StripFacts.call_backend_frame c s) as (_ & -> & _)
    end.
    exact Hb.
Qed.

(** X14. The brightness is an invariant of the strip: it is [1.0] after
    construction, and after any sequence of calls whose [set_brightness]
    arguments are floats other than NaN it is a float [b] with
    [0.0 <= b <= 1.0], whatever the backend does. *)
Theorem brightness_stays_in_unit_interval
  (backend : D) (calls : list strip_call) :
  brightness_args_ok calls ->
  get_brightness (__init__ backend) = float_1_0 /\
  in_unit_interval (get_brightness (run_strip_calls calls (__init__ backend)))
    = true.
Proof.
  intros Hcalls. split; [reflexivity|]. unfold get_brightness.
  assert (Hinv : forall self,
             in_unit_interval (_brightness self) = true ->
             in_unit_interval (_brightness (run_strip_calls calls self))
               = true).
  { induction Hcalls as [|c calls Hc _ IH]; intros self Hb; [exact Hb|].
    change (run_strip_calls (c :: calls) self)
      with (run_strip_calls calls (snd (run_strip_call c self))).
    apply IH, run_strip_call_brightness; assumption. }
  apply Hinv. reflexivity.
Qed.



(** X16. Negative indices alias: on a strip whose buffer holds
    [_led_count] pixels, for [0 <= i < _led_count] the calls
    [set_pixel_color (i - _led_count) c] and [set_pixel_color i c] do the
    same thing, and both return normally. *)
Theorem set_pixel_color_negative_alias
  (self : t D) (i : Z) (color : Color.t) :
  strip_wf self ->
  0 <= i < _led_count self ->
  set_pixel_color (i - _led_count self) color self =
    set_pixel_color i color self /\
  fst (set_pixel_color i color self) = Return tt.
Proof.
  unfold strip_wf. intros Hwf Hi. unfold set_pixel_color, list_setitem.
  rewrite (StripFacts.py_index_nonneg (length (_pixels self)) i) by lia.
  rewrite (StripFacts.py_index_negative (length (_pixels self))
             (i - _led_count self)) by lia.
  cbn [obind fst]. split; [|reflexivity].
  do 4 f_equal. lia.
Qed.

End Generic.

Lemma set_pixel_color_negative_alias_witness :
  set_pixel_color (-2) (Color.mk 5 6 7)
    (get_strip (WS2812SpiDriverSpec.fresh 3)) =
  set_pixel_color 1 (Color.mk 5 6 7)
    (get_strip (WS2812SpiDriverSpec.fresh 3)).
Proof.
  destruct (set_pixel_color_negative_alias
              (get_strip (WS2812SpiDriverSpec.fresh 3)) 1 (Color.mk 5 6 7))
    as [Halias _].
  - reflexivity.
  - cbn. lia.
  - exact Halias.
Defined.

Lemma get_brightness_after_set_brightness_witness :
  get_brightness
    (snd (set_brightness float_0_1
            (get_strip (WS2812SpiDriverSpec.fresh 1)))) = float_0_1.
Proof.
  apply (get_brightness_after_set_brightness
           (get_strip (WS2812SpiDriverSpec.fresh 1)) float_0_1).
  reflexivity.
Defined.

Lemma brightness_stays_in_unit_interval_witness :
  in_unit_interval
    (get_brightness
       (run_strip_calls
          [SetBrightness float_1_5; Show; SetBrightness float_0_1;
           SetPixelColor 4 (Color.mk 1 1 1); SetBrightness float_neg_0_5]
          (__init__ (WS2812SpiDriverSpec.fresh 1)))) = true.
Proof.
  destruct (brightness_stays_in_unit_interval (WS2812SpiDriverSpec.fresh 1)
              [SetBrightness float_1_5; Show; SetBrightness float_0_1;
               SetPixelColor 4 (Color.mk 1 1 1); SetBrightness float_neg_0_5])
    as [_ Hin].
  - repeat constructor; discriminate.
  - exact Hin.
Defined.


End StripExtraFacts.

(** ** Effects on the SPI driver *)

Module SpiEffectFacts.
Import Strip StripSpec SpiStripSpec FloatSpec CodecSpec SpiStripFacts.

Lemma run_strip_call_spi_strip (n : Z) (c : strip_call)
  (self : Strip.t WS2812SpiDriver.t) :
  spi_strip n self -> spi_strip n (snd (run_strip_call c self)).
Proof.
  intros (Hc & Hlen & Hwf).
  assert (Hn : 0 <= n) by apply Hwf.
  split; [rewrite StripFacts.run_call_led_count; exact Hc|].
  split.
  - pose proof (StripFacts.strip_run_call_wf c self) as Hpres.
    unfold strip_wf in Hpres.
    rewrite StripFacts.run_call_led_count, Hc in Hpres.
    apply Hpres; lia.
  - apply EffectFacts.run_call_backend_wf, Hwf.
Qed.

(** What one call on the strip adds to the transport log. *)
Lemma run_strip_call_frames (n : Z) (c : strip_call)
  (self : Strip.t WS2812SpiDriver.t) :
  spi_strip n self ->
  exists fs,
    frames (snd (run_strip_call c self)) = frames self ++ fs /\
    Forall (frame_ok n) fs /\
    length fs = (if strip_transmits c then 1 else 0)%nat.
Proof.
  intros Hs. destruct c as [i color|color|x| |];
    cbn [run_strip_call strip_transmits].
  - exists []. rewrite app_nil_r. split; [|split; [constructor|reflexivity]].
    unfold set_pixel_color. destruct (list_setitem _ _ _); reflexivity.
  - exists []. rewrite app_nil_r. split; [|split; [constructor|reflexivity]].
    reflexivity.
  - exists []. rewrite app_nil_r. split; [|split; [constructor|reflexivity]].
    reflexivity.
  - destruct (show_spi_strip n self Hs) as (_ & _ & _ & Hfr & _).
    eexists. split; [exact Hfr|]. split; [|reflexivity].
    constructor; [|constructor].
    apply DriverExtraFacts.encoded_frame_ok.
    rewrite EffectFacts.length_show_buffer.
    destruct Hs as (_ & Hlen & _). lia.
  - destruct (clear_spi_strip n self Hs) as (_ & _ & _ & Hfr & _).
    eexists. split; [exact Hfr|]. split; [|reflexivity].
    constructor; [|constructor].
    apply DriverExtraFacts.clear_frame_ok, (spi_strip_backend n self Hs).
Qed.

Lemma run_strip_calls_frames (n : Z) (calls : list strip_call)
  (self : Strip.t WS2812SpiDriver.t) :
  spi_strip n self ->
  exists fs,
    frames (run_strip_calls calls self) = frames self ++ fs /\
    Forall (frame_ok n) fs /\
    length fs = length (List.filter strip_transmits calls).
Proof.
  revert self. induction calls as [|c calls IH]; intros self Hs.
  - exists []. rewrite app_nil_r. repeat split. constructor.
  - change (run_strip_calls (c :: calls) self)
      with (run_strip_calls calls (snd (run_strip_call c self))).
    destruct (run_strip_call_frames n c self Hs) as (f1 & Ht1 & Hok1 & Hlen1).
    destruct (IH (snd (run_strip_call c self)))
      as (f2 & Ht2 & Hok2 & Hlen2); [apply run_strip_call_spi_strip, Hs|].
    exists (f1 ++ f2). rewrite Ht2, Ht1, app_assoc.
    split; [reflexivity|]. split; [apply Forall_app; auto|].
    rewrite length_app, Hlen1, Hlen2. cbn [List.filter].
    destruct (strip_transmits c); reflexivity.
Qed.

(** X8. Buffered changes transmit nothing: on a strip obtained from an SPI
    driver built for [n] LEDs, after any sequence of calls within range
    (8-bit colors, brightness arguments other than NaN; indices are free),
    the number of frames handed to the transport is the number of [show]
    and [clear] calls among them ([set_pixel_color], [set_all_pixels] and
    [set_brightness] send nothing, and no [show] or [clear] fails), and each
    of these frames is well formed for [n] LEDs. *)
Theorem strip_transmits_on_show_and_clear_only
  (spi_bus spi_device n : Z) (d0 : WS2812SpiDriver.t)
  (calls : list strip_call) :
  WS2812SpiDriver.__init__ spi_bus spi_device n = Return d0 ->
  Forall call_in_range calls ->
  length (frames (run_strip_calls calls (get_strip d0))) =
    length (List.filter strip_transmits calls) /\
  Forall (frame_ok n) (frames (run_strip_calls calls (get_strip d0))).
Proof.
  intros Hinit _.
  pose proof (run_strip_calls_spi_strip _ _ _ _ [] Hinit) as Hs.
  change (run_strip_calls [] (get_strip d0)) with (get_strip d0) in Hs.
  destruct (run_strip_calls_frames n calls (get_strip d0) Hs)
    as (fs & Ht & Hok & Hlen).
  assert (Hempty : frames (get_strip d0) = [])
    by apply (DriverExtraFacts.init_transmitted_nil _ _ _ _ Hinit).
  rewrite Ht, Hempty. cbn [app]. auto.
Qed.

Lemma strip_transmits_on_show_and_clear_only_witness :
  length
    (frames
       (run_strip_calls
          [SetAllPixels (Color.mk 1 2 3); Show; SetPixelColor 1 (Color.mk 0 0 0);
           SetBrightness float_0_1; Show; Clear; SetPixelColor 8 (Color.mk 0 0 0)]
          (get_strip (WS2812SpiDriverSpec.fresh 2)))) = 3%nat.
Proof.
  destruct (strip_transmits_on_show_and_clear_only 0 0 2
              (WS2812SpiDriverSpec.fresh 2)
              [SetAllPixels (Color.mk 1 2 3); Show;
               SetPixelColor 1 (Color.mk 0 0 0);
               SetBrightness float_0_1; Show; Clear;
               SetPixelColor 8 (Color.mk 0 0 0)]) as [Hlen _].
  - reflexivity.
  - repeat constructor; cbn; (lia || discriminate).
  - exact Hlen.
Defined.

(** [set_all_pixels c] followed by [show]. *)
Lemma fill_and_show (n : Z) (c : Color.t) (self : Strip.t WS2812SpiDriver.t) :
  spi_strip n self ->
  in_unit_interval (_brightness self) = true ->
  color_ok c ->
  fst ((do* set_all_pixels c in show) self) = Return tt /\
  frames (snd ((do* set_all_pixels c in show) self)) =
    frames self ++
    [uniform_frame n (scaled (_brightness self) (Color.g c))
       (scaled (_brightness self) (Color.r c))
       (scaled (_brightness self) (Color.b c))] /\
  _pixels (snd ((do* set_all_pixels c in show) self)) =
    replicate (Z.to_nat n) c /\
  _brightness (snd ((do* set_all_pixels c in show) self)) = _brightness self /\
  spi_strip n (snd ((do* set_all_pixels c in show) self)).
Proof.
  intros Hs Hb Hc.
  change ((do* set_all_pixels c in show) self)
    with (show (snd (set_all_pixels c self))).
  pose proof (run_strip_call_spi_strip n (SetAllPixels c) self Hs) as Hs1.
  cbn [run_strip_call] in Hs1.
  assert (Hpx : _pixels (snd (set_all_pixels c self)) =
                replicate (Z.to_nat n) c).
  { destruct Hs as (Hled & _). cbn. rewrite Hled. reflexivity. }
  apply (show_uniform n c (snd (set_all_pixels c self)) Hs1 Hb Hc Hpx).
Qed.

(** X9. The solid fills on the wire: on a strip obtained from an SPI driver
    built for [n] LEDs, at a brightness [b] in [0.0, 1.0], the effects
    [all_white_on], [all_green_on] and [all_blue_on] return normally, leave
    [n] pixels of their color, and transmit one frame in which every LED
    receives the bytes (w, w, w), (w, 0, 0) and (0, 0, w) respectively,
    green first, where w is what integer arithmetic alone says 255 becomes
    at brightness [b] ([exact_scaled]): 255 at [1.0], 127 at [0.5], 25 at
    [0.1]. *)
Theorem solid_fills_on_the_wire
  (spi_bus spi_device n : Z) (d0 : WS2812SpiDriver.t)
  (calls : list strip_call) :
  WS2812SpiDriver.__init__ spi_bus spi_device n = Return d0 ->
  in_unit_interval (_brightness (run_strip_calls calls (get_strip d0)))
    = true ->
  (fst (all_white_on (run_strip_calls calls (get_strip d0))) = Return tt /\
   _pixels (snd (all_white_on (run_strip_calls calls (get_strip d0)))) =
     replicate (Z.to_nat n) (Color.mk 255 255 255) /\
   frames (snd (all_white_on (run_strip_calls calls (get_strip d0)))) =
     frames (run_strip_calls calls (get_strip d0)) ++
     [uniform_frame n
        (exact_scaled (_brightness (run_strip_calls calls (get_strip d0))) 255)
        (exact_scaled (_brightness (run_strip_calls calls (get_strip d0))) 255)
        (exact_scaled (_brightness (run_strip_calls calls (get_strip d0))) 255)])
  /\
  (fst (all_green_on (run_strip_calls calls (get_strip d0))) = Return tt /\
   _pixels (snd (all_green_on (run_strip_calls calls (get_strip d0)))) =
     replicate (Z.to_nat n) (Color.mk 0 255 0) /\
   frames (snd (all_green_on (run_strip_calls calls (get_strip d0)))) =
     frames (run_strip_calls calls (get_strip d0)) ++
     [uniform_frame n
        (exact_scaled (_brightness (run_strip_calls calls (get_strip d0))) 255)
        0 0]) /\
  (fst (all_blue_on (run_strip_calls calls (get_strip d0))) = Return tt /\
   _pixels (snd (all_blue_on (run_strip_calls calls (get_strip d0)))) =
     replicate (Z.to_nat n) (Color.mk 0 0 255) /\
   frames (snd (all_blue_on (run_strip_calls calls (get_strip d0)))) =
     frames (run_strip_calls calls (get_strip d0)) ++
     [uniform_frame n 0 0
        (exact_scaled (_brightness (run_strip_calls calls (get_strip d0))) 255)])
  /\
  exact_scaled float_1_0 255 = 255 /\
  exact_scaled float_0_5 255 = 127 /\
  exact_scaled float_0_1 255 = 25.
Proof.
  intros Hinit Hb.
  pose proof (run_strip_calls_spi_strip _ _ _ _ calls Hinit) as Hs.
  set (s := run_strip_calls calls (get_strip d0)) in *.
  assert (Hz : scaled (_brightness s) 0 = 0) by apply scaled_zero, Hb.
  assert (Hw : scaled (_brightness s) 255 = exact_scaled (_brightness s) 255).
  { apply ScalingFacts.scaled_is_exact_scaled; [|exact Hb].
    unfold is_uint8. lia. }
  split; [|split; [|split; [|repeat split; reflexivity]]].
  - destruct (fill_and_show n (Color.mk 255 255 255) s Hs Hb)
      as (H1 & H2 & H3 & _); [repeat split; cbn; lia|].
    cbn [Color.g Color.r Color.b] in H2. rewrite Hw in H2.
    unfold all_white_on. auto.
  - destruct (fill_and_show n (Color.mk 0 255 0) s Hs Hb)
      as (H1 & H2 & H3 & _); [repeat split; cbn; lia|].
    cbn [Color.g Color.r Color.b] in H2. rewrite Hz, Hw in H2.
    unfold all_green_on. auto.
  - destruct (fill_and_show n (Color.mk 0 0 255) s Hs Hb)
      as (H1 & H2 & H3 & _); [repeat split; cbn; lia|].
    cbn [Color.g Color.r Color.b] in H2. rewrite Hz, Hw in H2.
    unfold all_blue_on. auto.
Qed.

Lemma solid_fills_on_the_wire_witness :
  frames
    (snd (all_green_on
            (run_strip_calls [SetBrightness float_0_5; Show]
               (get_strip (WS2812SpiDriverSpec.fresh 2))))) =
  frames
    (run_strip_calls [SetBrightness float_0_5; Show]
       (get_strip (WS2812SpiDriverSpec.fresh 2))) ++
  [uniform_frame 2 127 0 0].
Proof.
  destruct (solid_fills_on_the_wire 0 0 2 (WS2812SpiDriverSpec.fresh 2)
              [SetBrightness float_0_5; Show])
    as (_ & (_ & _ & Hgreen) & _).
  - reflexivity.
  - reflexivity.
  - exact Hgreen.
Defined.

End SpiEffectFacts.

(** ** white_rotate on any number of LEDs *)

Module RotateFacts.
Import Strip StripSpec SpiStripSpec EffectSpec FloatSpec SpiStripFacts.

Section Generic.
Context {D : Type} `{WS2812StripDriver.t D}.

Lemma for_each_cons {S A} (x : A) (l : list A) (body : A -> M S unit)
  (s : S) :
  for_each (x :: l) body s =
  match body x s with
  | (Return _, s1) => for_each l body s1
  | (Raise e, s1) => (Raise e, s1)
  end.
Proof.
  cbn [for_each]. unfold bind.
  destruct (body x s) as [[[]|e] s1]; reflexivity.
Qed.

(** Copying position [j] of the pattern into the buffer. *)
Lemma copy_pixel (pattern : list Color.t) (j : nat) (self : t D) :
  (j < length pattern)%nat ->
  length (_pixels self) = length pattern ->
  exists x,
    pattern !! j = Some x /\
    (let* color := lift (list_getitem pattern (Z.of_nat j)) in
     set_pixel_color (Z.of_nat j) color) self =
    (Return tt, with_pixels self (<[j := x]> (_pixels self))).
Proof.
  intros Hj Hlen.
  destruct (lookup_lt_is_Some_2 pattern j Hj) as [x Hx].
  exists x. split; [exact Hx|].
  unfold bind, lift, list_getitem, set_pixel_color, list_setitem.
  rewrite !StripFacts.py_index_nonneg by lia.
  cbn [obind]. rewrite Nat2Z.id, Hx. reflexivity.
Qed.

(** The inner loop of [white_rotate] copies the whole pattern. *)
Lemma copy_pattern_from (pattern : list Color.t) (m j : nat) (self : t D) :
  (j + m = length pattern)%nat ->
  length (_pixels self) = length pattern ->
  (forall i, (i < j)%nat -> _pixels self !! i = pattern !! i) ->
  for_each (map Z.of_nat (seq j m))
    (fun i =>
       let* color := lift (list_getitem pattern i) in
       set_pixel_color i color) self =
  (Return tt, with_pixels self pattern).
Proof.
  revert j self. induction m as [|m IH]; intros j self Hjm Hlen Hpre.
  - cbn [seq map for_each]. unfold ret.
    assert (Heq : _pixels self = pattern).
    { apply list_eq. intros i.
      destruct (Nat.lt_ge_cases i j) as [Hlt|Hge]; [apply Hpre, Hlt|].
      rewrite !lookup_ge_None_2 by lia. reflexivity. }
    destruct self as [lc br px be]. cbn [_pixels] in Heq. subst px.
    reflexivity.
  - cbn [seq map]. rewrite for_each_cons.
    destruct (copy_pixel pattern j self) as (x & Hx & ->); [lia|exact Hlen|].
    rewrite IH.
    + reflexivity.
    + lia.
    + cbn [with_pixels _pixels]. rewrite length_insert. exact Hlen.
    + intros i Hi. cbn [with_pixels _pixels].
      destruct (Nat.eq_dec i j) as [->|Hne].
      * rewrite list_lookup_insert_eq by lia. symmetry. exact Hx.
      * rewrite list_lookup_insert_ne by lia. apply Hpre. lia.
Qed.

Lemma copy_pattern (pattern : list Color.t) (n : Z) (self : t D) :
  Z.of_nat (length pattern) = n ->
  length (_pixels self) = length pattern ->
  for_each (range n)
    (fun i =>
       let* color := lift (list_getitem pattern i) in
       set_pixel_color i color) self =
  (Return tt, with_pixels self pattern).
Proof.
  intros Hn Hlen. unfold range.
  apply copy_pattern_from; [lia|exact Hlen|]. intros i Hi. lia.
Qed.

End Generic.

(** One [pop(0)] and [append] moves the lit pixel one position down,
    wrapping from 0 to [n - 1]. *)
Lemma rotate_one_lit (n p : Z) :
  0 <= p < n ->
  exists first rest,
    one_lit n p = first :: rest /\
    rest ++ [first] = one_lit n ((p - 1) mod n).
Proof.
  intros Hp. unfold one_lit.
  destruct (Z.to_nat n) as [|k] eqn:Hk; [lia|].
  destruct (Z.eq_dec p 0) as [->|Hne].
  - exists (Color.mk 255 255 255), (replicate k (Color.mk 0 0 0)).
    split; [reflexivity|].
    replace ((0 - 1) mod n) with (n - 1).
    + replace (Z.to_nat (n - 1)) with (length (replicate k (Color.mk 0 0 0)))
        by (rewrite length_replicate; lia).
      rewrite replicate_S_end, insert_app_r_alt by lia.
      rewrite Nat.sub_diag. reflexivity.
    + apply Z.mod_unique with (-1); lia.
  - exists (Color.mk 0 0 0),
      (<[Z.to_nat (p - 1) := Color.mk 255 255 255]>
         (replicate k (Color.mk 0 0 0))).
    split.
    + replace (Z.to_nat p) with (S (Z.to_nat (p - 1))) by lia. reflexivity.
    + rewrite Z.mod_small by lia.
      rewrite replicate_S_end, insert_app_l
        by (rewrite length_replicate; lia).
      reflexivity.
Qed.

Lemma lit_indices_from_black (i k : nat) :
  lit_indices_from i (replicate k (Color.mk 0 0 0)) = [].
Proof.
  revert i. induction k as [|k IH]; intros i; [reflexivity|].
  cbn [replicate lit_indices_from]. apply IH.
Qed.

Lemma lit_indices_from_one (i k q : nat) :
  (q < k)%nat ->
  lit_indices_from i
    (<[q := Color.mk 255 255 255]> (replicate k (Color.mk 0 0 0))) =
  [(i + q)%nat].
Proof.
  revert i q. induction k as [|k IH]; intros i q Hq; [lia|].
  destruct q as [|q].
  - cbn. rewrite lit_indices_from_black. f_equal. lia.
  - cbn. rewrite IH by lia. f_equal. lia.
Qed.

Lemma lit_indices_one_lit (n p : Z) :
  0 <= p < n -> lit_indices (one_lit n p) = [Z.to_nat p].
Proof.
  intros Hp. unfold lit_indices, one_lit.
  rewrite lit_indices_from_one by lia. reflexivity.
Qed.

Lemma length_one_lit (n p : Z) : length (one_lit n p) = Z.to_nat n.
Proof. unfold one_lit. rewrite length_insert. apply length_replicate. Qed.

(** [k + 1] turns of the loop, started on a pattern with one lit pixel. *)
Lemma white_rotate_loop_one_lit (k : nat) (n p : Z) (delay : float)
  (self : Strip.t WS2812SpiDriver.t) :
  spi_strip n self ->
  0 <= p < n ->
  fst (white_rotate_loop (S k) n delay (one_lit n p) self) = Return tt /\
  _pixels (snd (white_rotate_loop (S k) n delay (one_lit n p) self)) =
    one_lit n ((p - Z.of_nat (S k)) mod n) /\
  length (frames (snd (white_rotate_loop (S k) n delay (one_lit n p) self))) =
    (length (frames self) + S k)%nat.
Proof.
  revert p self. induction k as [|k IH]; intros p self Hs Hp;
    destruct (rotate_one_lit n p Hp) as (first & rest & Hpat & Hrot);
    rewrite Hpat, EffectFacts.white_rotate_loop_S, Hrot;
    (rewrite (copy_pattern (one_lit n ((p - 1) mod n)) n);
     [|rewrite length_one_lit; lia
      |rewrite length_one_lit; destruct Hs as (_ & Hlen & _); lia]);
    assert (Hs1 : spi_strip n
                    (with_pixels self (one_lit n ((p - 1) mod n))))
      by (destruct Hs as (Hc & Hlen & Hwf); repeat split;
          [exact Hc | cbn [with_pixels _pixels]; rewrite length_one_lit; lia
           | apply Hwf | apply Hwf | apply Hwf | apply Hwf]);
    destruct (show_spi_strip n _ Hs1) as (Hret & Hpx & _ & Hfr & Hs2);
    destruct (show (with_pixels self (one_lit n ((p - 1) mod n))))
      as [o s2];
    cbn [fst snd] in *; subst o.
  - cbn [white_rotate_loop ret fst snd]. split; [reflexivity|].
    split; [exact Hpx|]. rewrite Hfr, length_app. reflexivity.
  - assert (Hp1 : 0 <= (p - 1) mod n < n) by (apply Z.mod_pos_bound; lia).
    destruct (IH ((p - 1) mod n) s2 Hs2 Hp1) as (Hr & Hp' & Hf).
    split; [exact Hr|]. split.
    + rewrite Hp'. f_equal.
      rewrite Zminus_mod_idemp_l. f_equal. lia.
    + rewrite Hf, Hfr, length_app. cbn [length with_pixels frames _backend].
      unfold frames. cbn [with_pixels _backend]. lia.
Qed.


Lemma initial_pattern (n : Z) :
  1 <= n ->
  [Color.mk 255 255 255] ++ list_mul (Color.mk 0 0 0) (n - 1) = one_lit n 0.
Proof.
  intros Hn. unfold one_lit, list_mul.
  replace (Z.to_nat n) with (S (Z.to_nat (n - 1))) by lia. reflexivity.
Qed.

Lemma white_rotate_steps (n k : Z) (delay : float)
  (self : Strip.t WS2812SpiDriver.t) :
  spi_strip n self -> 1 <= n -> 1 <= k ->
  fst (white_rotate (Some k) delay self) = Return tt /\
  _pixels (snd (white_rotate (Some k) delay self)) =
    one_lit n ((- k) mod n) /\
  length (frames (snd (white_rotate (Some k) delay self))) =
    (length (frames self) + Z.to_nat k)%nat.
Proof.
  intros Hs Hn Hk. unfold white_rotate, num_pixels.
  destruct Hs as (Hc & Hs'). rewrite Hc.
  assert (Hs : spi_strip n self) by (split; assumption).
  rewrite initial_pattern by exact Hn.
  destruct (Z.to_nat k) as [|k'] eqn:Ek; [lia|].
  destruct (white_rotate_loop_one_lit k' n 0 delay self Hs ltac:(lia))
    as (Hret & Hpx & Hfr).
  split; [exact Hret|]. split; [|exact Hfr].
  rewrite Hpx. do 2 f_equal. lia.
Qed.

(** X10. [white_rotate] on any number of LEDs: on a strip obtained from an
    SPI driver built for [n >= 1] LEDs, after any sequence of calls, running
    it for [k >= 1] steps with a delay that [time.sleep] accepts returns
    normally, transmits exactly [k] frames, and leaves one white pixel, at
    index [(- k) mod n], among black ones: the light moves from the last
    LED toward the first. *)
Theorem white_rotate_any_led_count
  (spi_bus spi_device n : Z) (d0 : WS2812SpiDriver.t)
  (calls : list strip_call) (k : Z) (delay : float) :
  WS2812SpiDriver.__init__ spi_bus spi_device n = Return d0 ->
  sleep_accepts delay = true ->
  1 <= n -> 1 <= k ->
  fst (white_rotate (Some k) delay (run_strip_calls calls (get_strip d0))) =
    Return tt /\
  _pixels (snd (white_rotate (Some k) delay
                  (run_strip_calls calls (get_strip d0)))) =
    one_lit n ((- k) mod n) /\
  lit_indices
    (_pixels (snd (white_rotate (Some k) delay
                     (run_strip_calls calls (get_strip d0))))) =
    [Z.to_nat ((- k) mod n)] /\
  length (frames (snd (white_rotate (Some k) delay
                         (run_strip_calls calls (get_strip d0))))) =
    (length (frames (run_strip_calls calls (get_strip d0))) + Z.to_nat k)%nat.
Proof.
  intros Hinit _ Hn Hk.
  pose proof (run_strip_calls_spi_strip _ _ _ _ calls Hinit) as Hs.
  destruct (white_rotate_steps n k delay _ Hs Hn Hk) as (Hret & Hpx & Hfr).
  split; [exact Hret|]. split; [exact Hpx|]. split; [|exact Hfr].
  rewrite Hpx. apply lit_indices_one_lit, Z.mod_pos_bound. lia.
Qed.

Lemma white_rotate_any_led_count_witness :
  lit_indices
    (_pixels (snd (white_rotate (Some 2) float_0_1
                     (run_strip_calls [SetAllPixels (Color.mk 7 7 7)]
                        (get_strip (WS2812SpiDriverSpec.fresh 3)))))) =
  [1%nat].
Proof.
  destruct (white_rotate_any_led_count 0 0 3 (WS2812SpiDriverSpec.fresh 3)
              [SetAllPixels (Color.mk 7 7 7)] 2 float_0_1)
    as (_ & _ & Hlit & _).
  - reflexivity.
  - reflexivity.
  - lia.
  - lia.
  - exact Hlit.
Defined.

(** X11. With the default number of iterations, five times the LED count,
    [white_rotate] makes five full turns: on a strip obtained from an SPI
    driver built for [n >= 1] LEDs, with a delay that [time.sleep] accepts,
    it returns normally, transmits [5 * n] frames, and ends with the white
    pixel back at index 0. *)
Theorem white_rotate_default_ends_at_start
  (spi_bus spi_device n : Z) (d0 : WS2812SpiDriver.t)
  (calls : list strip_call) (delay : float) :
  WS2812SpiDriver.__init__ spi_bus spi_device n = Return d0 ->
  sleep_accepts delay = true ->
  1 <= n ->
  fst (white_rotate None delay (run_strip_calls calls (get_strip d0))) =
    Return tt /\
  _pixels (snd (white_rotate None delay
                  (run_strip_calls calls (get_strip d0)))) =
    one_lit n 0 /\
  length (frames (snd (white_rotate None delay
                         (run_strip_calls calls (get_strip d0))))) =
    (length (frames (run_strip_calls calls (get_strip d0))) +
     5 * Z.to_nat n)%nat.
Proof.
  intros Hinit _ Hn.
  pose proof (run_strip_calls_spi_strip _ _ _ _ calls Hinit) as Hs.
  set (s := run_strip_calls calls (get_strip d0)) in *.
  assert (Hdef : white_rotate None delay s = white_rotate (Some (n * 5)) delay s).
  { unfold white_rotate, num_pixels. destruct Hs as (-> & _). reflexivity. }
  rewrite Hdef.
  destruct (white_rotate_steps n (n * 5) delay s Hs Hn ltac:(lia))
    as (Hret & Hpx & Hfr).
  split; [exact Hret|]. split.
  - rewrite Hpx. f_equal.
    replace (- (n * 5)) with (-5 * n) by lia. apply Z_mod_mult.
  - rewrite Hfr. lia.
Qed.

Lemma white_rotate_default_ends_at_start_witness :
  _pixels (snd (white_rotate None float_0_1
                  (get_strip (WS2812SpiDriverSpec.fresh 2)))) =
  [Color.mk 255 255 255; Color.mk 0 0 0].
Proof.
  destruct (white_rotate_default_ends_at_start 0 0 2
              (WS2812SpiDriverSpec.fresh 2) [] float_0_1) as (_ & Hpx & _).
  - reflexivity.
  - reflexivity.
  - lia.
  - exact Hpx.
Defined.

End RotateFacts.

(** ** white_breathing *)

Module BreathingFacts.
Import Strip StripSpec SpiStripSpec EffectSpec FloatSpec SpiStripFacts.

(** X12. With [steps = 1] and at least one cycle, [white_breathing] raises
    [ZeroDivisionError] at its very first step, from [0 / (1 - 1)], on any
    backend: nothing is transmitted and the strip, brightness included, is
    left exactly as it was. *)
Theorem white_breathing_one_step_divides_by_zero
  {D : Type} `{WS2812StripDriver.t D}
  (cycles : Z) (delay : float) (self : Strip.t D) :
  1 <= cycles ->
  white_breathing cycles 1 delay self = (Interrupted ZeroDivisionError, self).
Proof.
  intros Hc. unfold white_breathing, range.
  destruct (Z.to_nat cycles) as [|c] eqn:Ec; [lia|].
  reflexivity.
Qed.

Lemma white_breathing_one_step_divides_by_zero_witness :
  white_breathing 5 1 float_0_1 (get_strip (WS2812SpiDriverSpec.fresh 2)) =
  (Interrupted ZeroDivisionError, get_strip (WS2812SpiDriverSpec.fresh 2)).
Proof.
  apply (white_breathing_one_step_divides_by_zero 5 float_0_1
           (get_strip (WS2812SpiDriverSpec.fresh 2))).
  lia.
Defined.

Lemma all_white_on_spi_strip (n : Z) (self : Strip.t WS2812SpiDriver.t) :
  spi_strip n self ->
  fst (all_white_on self) = Return tt /\
  _pixels (snd (all_white_on self)) =
    replicate (Z.to_nat n) (Color.mk 255 255 255) /\
  _brightness (snd (all_white_on self)) = _brightness self /\
  length (frames (snd (all_white_on self))) = S (length (frames self)) /\
  spi_strip n (snd (all_white_on self)).
Proof.
  intros Hs. unfold all_white_on.
  change ((do* set_all_pixels (Color.mk 255 255 255) in show) self)
    with (show (snd (set_all_pixels (Color.mk 255 255 255) self))).
  pose proof (SpiEffectFacts.run_strip_call_spi_strip n
                (SetAllPixels (Color.mk 255 255 255)) self Hs) as Hs1.
  cbn [run_strip_call] in Hs1.
  destruct (show_spi_strip n _ Hs1) as (Hret & Hpx & Hbr & Hfr & Hs2).
  split; [exact Hret|]. split; [|split; [exact Hbr|split; [|exact Hs2]]].
  - rewrite Hpx. destruct Hs as (Hled & _). cbn. rewrite Hled. reflexivity.
  - rewrite Hfr, length_app. cbn [length]. unfold frames.
    cbn [set_all_pixels snd _backend]. lia.
Qed.

(** A step of an inner loop whose brightness was computed. *)
Lemma breathing_step_spi_strip (n : Z) (brightness delay : float)
  (self : Strip.t WS2812SpiDriver.t) :
  spi_strip n self ->
  fst (breathing_step (Some brightness) delay self) = Completed /\
  length (frames (snd (breathing_step (Some brightness) delay self))) =
    S (length (frames self)) /\
  spi_strip n (snd (breathing_step (Some brightness) delay self)).
Proof.
  intros Hs.
  pose proof (SpiEffectFacts.run_strip_call_spi_strip n
                (SetBrightness brightness) self Hs) as Hs1.
  cbn [run_strip_call] in Hs1.
  destruct (all_white_on_spi_strip n _ Hs1) as (Hret & _ & _ & Hfr & Hs2).
  unfold breathing_step, and_then, run_method, time_sleep, ret.
  cbn [set_brightness] in *.
  destruct (all_white_on _) as [o s2]. cbn [fst snd] in *. subst o.
  cbn [fst snd]. split; [reflexivity|]. split; [exact Hfr|exact Hs2].
Qed.

(** A loop whose every turn completes and transmits [c] frames. *)
Lemma for_each_E_frames {A} (n : Z) (c : nat) (l : list A)
  (body : A -> E (Strip.t WS2812SpiDriver.t)) :
  (forall x self,
     spi_strip n self ->
     fst (body x self) = Completed /\
     length (frames (snd (body x self))) = (length (frames self) + c)%nat /\
     spi_strip n (snd (body x self))) ->
  forall self,
    spi_strip n self ->
    fst (for_each_E l body self) = Completed /\
    length (frames (snd (for_each_E l body self))) =
      (length (frames self) + c * length l)%nat /\
    spi_strip n (snd (for_each_E l body self)).
Proof.
  intros Hbody. induction l as [|x l IH]; intros self Hs.
  - cbn [for_each_E fst snd length]. split; [reflexivity|].
    split; [lia|exact Hs].
  - cbn [for_each_E]. unfold and_then.
    destruct (Hbody x self Hs) as (Hret & Hfr & Hs1).
    destruct (body x self) as [o s1]. cbn [fst snd] in *. subst o.
    destruct (IH s1 Hs1) as (Hret' & Hfr' & Hs2).
    split; [exact Hret'|]. split; [|exact Hs2].
    rewrite Hfr', Hfr. cbn [length]. lia.
Qed.

Lemma length_range (z : Z) : length (range z) = Z.to_nat z.
Proof. unfold range. rewrite length_map, length_seq. reflexivity. Qed.

(** X13. For any number of cycles, any number of steps other than 1 and a
    delay that [time.sleep] accepts, on a strip obtained from an SPI driver
    built for [n] LEDs, [white_breathing] completes; it transmits two frames
    per step of each cycle and a last one; it leaves [n] white pixels; and
    it leaves the brightness at the clamp of what it was before, so exactly
    as it was whenever that was a float in [0.0, 1.0]. *)
Theorem white_breathing_completes_and_restores_brightness
  (spi_bus spi_device n : Z) (d0 : WS2812SpiDriver.t)
  (calls : list strip_call) (cycles steps : Z) (delay : float) :
  WS2812SpiDriver.__init__ spi_bus spi_device n = Return d0 ->
  sleep_accepts delay = true ->
  steps <> 1 ->
  fst (white_breathing cycles steps delay
         (run_strip_calls calls (get_strip d0))) = Completed /\
  length (frames (snd (white_breathing cycles steps delay
                         (run_strip_calls calls (get_strip d0))))) =
    (length (frames (run_strip_calls calls (get_strip d0))) +
     2 * Z.to_nat steps * Z.to_nat cycles + 1)%nat /\
  _pixels (snd (white_breathing cycles steps delay
                  (run_strip_calls calls (get_strip d0)))) =
    replicate (Z.to_nat n) (Color.mk 255 255 255) /\
  get_brightness (snd (white_breathing cycles steps delay
                         (run_strip_calls calls (get_strip d0)))) =
    clamp_unit (get_brightness (run_strip_calls calls (get_strip d0))) /\
  (in_unit_interval (get_brightness (run_strip_calls calls (get_strip d0)))
     = true ->
   get_brightness (snd (white_breathing cycles steps delay
                          (run_strip_calls calls (get_strip d0)))) =
   get_brightness (run_strip_calls calls (get_strip d0))).
Proof.
  intros Hinit _ Hsteps.
  pose proof (run_strip_calls_spi_strip _ _ _ _ calls Hinit) as Hs.
  set (s := run_strip_calls calls (get_strip d0)) in *.
  assert (Hdiv : forall step, exists q, py_true_div step (steps - 1) = Some q).
  { intros step. unfold py_true_div.
    destruct (Z.eqb_spec (steps - 1) 0) as [He|_]; [lia|]. eauto. }
  assert (Hup : forall (step : Z) self,
             spi_strip n self ->
             fst (breathing_step (py_true_div step (steps - 1)) delay self) =
               Completed /\
             length (frames (snd (breathing_step
                                    (py_true_div step (steps - 1)) delay self)))
               = (length (frames self) + 1)%nat /\
             spi_strip n (snd (breathing_step
                                 (py_true_div step (steps - 1)) delay self))).
  { intros step self Hself. destruct (Hdiv step) as [q ->].
    destruct (breathing_step_spi_strip n q delay self Hself) as (H1 & H2 & H3).
    rewrite H2. split; [exact H1|]. split; [lia|exact H3]. }
  assert (Hdown : forall (step : Z) self,
             spi_strip n self ->
             fst (breathing_step
                    (option_map (float_sub (float_of_int 1))
                       (py_true_div step (steps - 1))) delay self) =
               Completed /\
             length (frames (snd (breathing_step
                                    (option_map (float_sub (float_of_int 1))
                                       (py_true_div step (steps - 1)))
                                    delay self)))
               = (length (frames self) + 1)%nat /\
             spi_strip n (snd (breathing_step
                                 (option_map (float_sub (float_of_int 1))
                                    (py_true_div step (steps - 1)))
                                 delay self))).
  { intros step self Hself. destruct (Hdiv step) as [q ->].
    cbn [option_map].
    destruct (breathing_step_spi_strip n (float_sub (float_of_int 1) q)
                delay self Hself) as (H1 & H2 & H3).
    rewrite H2. split; [exact H1|]. split; [lia|exact H3]. }
  set (cycle := fun _ : Z =>
         and_then
           (for_each_E (range steps)
              (fun step =>
                 breathing_step (py_true_div step (steps - 1)) delay))
           (for_each_E (range steps)
              (fun step =>
                 breathing_step
                   (option_map (float_sub (float_of_int 1))
                      (py_true_div step (steps - 1))) delay))).
  assert (Hcycle : forall (x : Z) self,
             spi_strip n self ->
             fst (cycle x self) = Completed /\
             length (frames (snd (cycle x self))) =
               (length (frames self) + 2 * Z.to_nat steps)%nat /\
             spi_strip n (snd (cycle x self))).
  { intros x self Hself. unfold cycle, and_then.
    destruct (for_each_E_frames n 1 (range steps) _ Hup self Hself)
      as (H1 & H2 & H3).
    destruct (for_each_E (range steps) _ self) as [o s1] eqn:E1.
    cbn [fst snd] in *. subst o.
    destruct (for_each_E_frames n 1 (range steps) _ Hdown s1 H3)
      as (H4 & H5 & H6).
    split; [exact H4|]. split; [|exact H6].
    etransitivity; [exact H5|]. rewrite H2, !length_range. lia. }
  destruct (for_each_E_frames n (2 * Z.to_nat steps) (range cycles) cycle
              Hcycle s Hs) as (H1 & H2 & H3).
  set (s1 := snd (for_each_E (range cycles) cycle s)) in *.
  pose proof (SpiEffectFacts.run_strip_call_spi_strip n
                (SetBrightness (get_brightness s)) s1 H3) as Hs2.
  cbn [run_strip_call] in Hs2.
  set (s2 := snd (set_brightness (get_brightness s) s1)) in *.
  destruct (all_white_on_spi_strip n s2 Hs2) as (Hret & Hpx & Hbr & Hfr & _).
  set (s3 := snd (all_white_on s2)) in *.
  assert (Hwb : white_breathing cycles steps delay s = (Completed, s3)).
  { unfold white_breathing. fold cycle. unfold and_then, run_method.
    unfold s3, s2, s1 in *.
    destruct (for_each_E (range cycles) cycle s) as [o t1].
    cbn [fst snd] in *. subst o. cbn [set_brightness snd] in *.
    destruct (all_white_on _) as [o t3]. cbn [fst snd] in *. subst o.
    reflexivity. }
  rewrite Hwb. cbn [fst snd].
  assert (Hfinal : get_brightness s3 = clamp_unit (get_brightness s)).
  { unfold get_brightness in *. rewrite Hbr. unfold s2.
    cbn [set_brightness snd _brightness].
    apply StripFacts.max_min_is_clamp. }
  split; [reflexivity|]. split.
  - rewrite Hfr. change (frames s2) with (frames s1).
    rewrite H2, length_range. lia.
  - split; [exact Hpx|]. split; [exact Hfinal|].
    intros Hin. rewrite Hfinal. apply StripExtraFacts.clamp_unit_id, Hin.
Qed.

Lemma white_breathing_completes_and_restores_brightness_witness :
  get_brightness
    (snd (white_breathing 2 3 float_0_1
            (run_strip_calls [SetBrightness float_0_1]
               (get_strip (WS2812SpiDriverSpec.fresh 1))))) = float_0_1.
Proof.
  destruct (white_breathing_completes_and_restores_brightness 0 0 1
              (WS2812SpiDriverSpec.fresh 1) [SetBrightness float_0_1]
              2 3 float_0_1) as (_ & _ & _ & _ & Hsame).
  - reflexivity.
  - reflexivity.
  - lia.
  - apply Hsame. reflexivity.
Defined.

End BreathingFacts.
